(** * CyberGuard dashboard: a model of the front-end's view logic

    The development follows the TypeScript sources of the dashboard:
    the API client ([services/api.ts]), the Users, UserDetail, Dashboard,
    Recommendations and Settings pages, the RiskSimulator component and
    the Layout shell.  Pure
    helpers become functions; a React component becomes a record of its
    [useState] cells together with one transition per handler, the
    outcome of each awaited network call being an explicit argument. *)

From Stdlib Require Import QArith Qabs Qround Lqa Sorted Ascii String.
From stdpp Require Import gmap strings list fin_maps pretty.

Local Open Scope string_scope.

(** ** JavaScript numbers

    A finite double is a rational, and the constants the code compares
    scores with (20, 30, 40) are doubles, so [>=] on finite values is
    the order of [Q].  The three other values of the [number] type are
    kept apart. *)

Inductive number : Type :=
  | Finite (q : Q)
  | PosInfinity
  | NegInfinity
  | NaN.

(** [x >= k] for a finite constant [k]. *)
Definition num_geb (x : number) (k : Q) : bool :=
  match x with
  | Finite q => Qle_bool k q
  | PosInfinity => true
  | NegInfinity => false
  | NaN => false
  end.

(** [x <= y]; every comparison with [NaN] is false. *)
Definition num_leb (x y : number) : bool :=
  match x, y with
  | NaN, _ | _, NaN => false
  | NegInfinity, _ => true
  | _, PosInfinity => true
  | Finite a, Finite b => Qle_bool a b
  | _, _ => false
  end.

(** [x - y].  Only the sign of a difference is ever inspected (by the
    sort comparator), and the sign of the rounded difference of two
    finite doubles is the sign of the exact one. *)
Definition num_sub (x y : number) : number :=
  match x, y with
  | NaN, _ | _, NaN => NaN
  | Finite a, Finite b => Finite (a - b)
  | PosInfinity, PosInfinity => NaN
  | NegInfinity, NegInfinity => NaN
  | PosInfinity, _ => PosInfinity
  | NegInfinity, _ => NegInfinity
  | Finite _, PosInfinity => NegInfinity
  | Finite _, NegInfinity => PosInfinity
  end.

Section Rounded.
(** Arithmetic on doubles is correctly rounded: the result of [+] or
    [/] on finite operands is the double nearest to the exact result,
    or an infinity when that overflows.  [round] is that rounding, from
    the exact rational result to the [number] the operation returns. *)
Variable round : Q → number.

(** [x + y]. *)
Definition num_add (x y : number) : number :=
  match x, y with
  | NaN, _ | _, NaN => NaN
  | Finite a, Finite b => round (a + b)
  | PosInfinity, NegInfinity | NegInfinity, PosInfinity => NaN
  | PosInfinity, _ | _, PosInfinity => PosInfinity
  | NegInfinity, _ | _, NegInfinity => NegInfinity
  end.

(** [x / n] for an array length [n]: dividing by zero does not throw,
    it yields [NaN] for a zero or [NaN] numerator and an infinity
    otherwise. *)
Definition num_div (x : number) (n : nat) : number :=
  match n with
  | O =>
      match x with
      | Finite q =>
          if Qeq_bool q 0 then NaN
          else if Qle_bool q 0 then NegInfinity else PosInfinity
      | other => other
      end
  | S _ =>
      match x with
      | Finite q => round (q / inject_Z (Z.of_nat n))
      | other => other
      end
  end.

End Rounded.

Definition is_finite (x : number) : bool :=
  match x with Finite _ => true | _ => false end.

(** [x.toFixed(1)]: the integer [n] with [n / 10] nearest to [|x|], the
    larger one on a tie, printed with one decimal.  (Magnitudes of
    1e21 and above, which JavaScript prints in exponent form, are
    outside what a risk score takes.) *)
Definition toFixed1 (x : number) : string :=
  match x with
  | NaN => "NaN"
  | PosInfinity => "Infinity"
  | NegInfinity => "-Infinity"
  | Finite q =>
      let a := Qabs q in
      let n := Qfloor (a * 10 + (1 # 2)) in
      (if Qle_bool 0 q then "" else "-") +:+
      pretty (n / 10)%Z +:+ "." +:+ pretty (n mod 10)%Z
  end.

(** [x > 0]. *)
Definition num_pos (x : number) : bool :=
  match x with
  | Finite q => negb (Qle_bool q 0)
  | PosInfinity => true
  | NegInfinity | NaN => false
  end.

(** ** JavaScript strings

    [String.prototype.includes]: [t] occurs in [s] as a contiguous run
    of code units. *)

Fixpoint includes (s t : string) : bool :=
  String.prefix t s ||
  match s with
  | EmptyString => false
  | String _ s' => includes s' t
  end.

(** [toLowerCase] restricted to the letters A-Z; the Users page takes
    the lowering function as a parameter, this one instantiates it on
    ASCII text. *)
Definition lower_ascii (c : ascii) : ascii :=
  let n := nat_of_ascii c in
  if (65 <=? n)%nat && (n <=? 90)%nat then ascii_of_nat (n + 32) else c.

Fixpoint asciiToLowerCase (s : string) : string :=
  match s with
  | EmptyString => EmptyString
  | String c s' => String (lower_ascii c) (asciiToLowerCase s')
  end.

(** ** Severity bands

    The colour a Tailwind class list paints with; every class list the
    banding functions return names exactly one of the four colours. *)

Inductive Severity : Type := Green | Yellow | Orange | Red.

Definition severity_rank (s : Severity) : nat :=
  match s with Green => 0 | Yellow => 1 | Orange => 2 | Red => 3 end.

Definition severity_of_class (cls : string) : option Severity :=
  if includes cls "red" then Some Red
  else if includes cls "orange" then Some Orange
  else if includes cls "yellow" then Some Yellow
  else if includes cls "green" then Some Green
  else None.

(** The banding as the specification words it: [>= 40] red, [>= 30]
    orange, [>= 20] yellow, otherwise green. *)
Definition spec_band (score : number) : Severity :=
  if num_geb score 40 then Red
  else if num_geb score 30 then Orange
  else if num_geb score 20 then Yellow
  else Green.

(** ** Settled promises and observable effects

    An awaited expression either resolves with a value or rejects with
    an error; [try]/[catch] is a match on the outcome. *)

Inductive Outcome (A : Type) : Type :=
  | Resolved (a : A)
  | Rejected (err : string).
Arguments Resolved {A} a.
Arguments Rejected {A} err.

Global Instance outcome_ret : MRet Outcome := λ A a, Resolved a.

Global Instance outcome_bind : MBind Outcome := λ A B k o,
  match o with
  | Resolved a => k a
  | Rejected e => Rejected e
  end.

(** What a handler leaves outside the component: console lines and
    react-hot-toast notifications. *)
Inductive Effect : Type :=
  | ConsoleError (msg : string)
  | ToastError (msg : string)
  | ToastSuccess (msg : string).

Definition isToastError (e : Effect) : bool :=
  match e with ToastError _ => true | _ => false end.

Definition isConsoleError (e : Effect) : bool :=
  match e with ConsoleError _ => true | _ => false end.

Definition failureNotifications (effects : list Effect) : nat :=
  length (List.filter isToastError effects).

Definition consoleLines (effects : list Effect) : nat :=
  length (List.filter isConsoleError effects).

(** Reading [.data] off an array: arrays carry indices and [length]
    but no [data] property, so the read is [undefined] ([None]). *)
Definition array_data {T : Type} (a : list T) : option (list T) := None.

(** ** More of the JavaScript run time

    [x / k], [x * k] and [Math.min(x, k)] for a positive finite
    constant [k], exact on finite values. *)
Definition num_div_const (x : number) (k : Q) : number :=
  match x with
  | Finite q => Finite (q / k)
  | other => other
  end.

Definition num_mul_const (x : number) (k : Q) : number :=
  match x with
  | Finite q => Finite (q * k)
  | other => other
  end.

Definition num_min_const (x : number) (k : Q) : number :=
  match x with
  | Finite q => if Qle_bool q k then Finite q else Finite k
  | PosInfinity => Finite k
  | NegInfinity => NegInfinity
  | NaN => NaN
  end.

(** [x < 0]. *)
Definition num_neg (x : number) : bool :=
  match x with
  | Finite q => negb (Qle_bool 0 q)
  | NegInfinity => true
  | PosInfinity | NaN => false
  end.

(** [s.charAt(0)] and [s.slice(1)]. *)
Definition charAt0 (s : string) : string :=
  match s with
  | EmptyString => EmptyString
  | String c _ => String c EmptyString
  end.

Definition slice1 (s : string) : string :=
  match s with
  | EmptyString => EmptyString
  | String _ rest => rest
  end.

(** [s.replace(c, r)] for one-character strings [c] and [r]: only the
    first occurrence is replaced. *)
Fixpoint replaceFirstChar (c r : ascii) (s : string) : string :=
  match s with
  | EmptyString => EmptyString
  | String x rest =>
      if Ascii.eqb x c then String r rest else String x (replaceFirstChar c r rest)
  end.

Fixpoint countChar (c : ascii) (s : string) : nat :=
  match s with
  | EmptyString => 0
  | String x rest => (if Ascii.eqb x c then 1 else 0) + countChar c rest
  end.

(** [arr.slice(-n)]: the last [n] elements, all of them when there are
    fewer. *)
Definition sliceLast {A : Type} (n : nat) (l : list A) : list A :=
  drop (length l - n) l.

(** ** services/api.ts *)

Module Api.

Record UserRiskData : Type := mkUser {
  user_id : string;
  name : string;
  email : string;
  current_score : number;
  risk_level : string;
  last_updated : string
}.

Inductive HttpMethod : Type := GET | PUT.

(** A request as [axiosInstance] receives it: verb, path under
    [baseURL], and the [score] of the JSON body when there is one. *)
Record Request : Type := mkRequest {
  method : HttpMethod;
  url : string;
  score : option number
}.

Record AxiosResponse (T : Type) : Type := mkResponse { data : T }.
Arguments mkResponse {T} data.
Arguments data {T} _.

Record UpdateResult : Type := mkUpdateResult {
  success : bool;
  message : string
}.

Definition baseURL : string := "http://localhost:5000/api".

(** [axiosInstance.get]/[.put]: one round trip that resolves with the
    response or rejects with the transport or HTTP-status error. *)
Definition Transport (T : Type) : Type := Request → Outcome (AxiosResponse T).

Definition getUserRiskScores
    (axiosInstance : Transport (list UserRiskData)) : Outcome (list UserRiskData) :=
  response ← axiosInstance (mkRequest GET "/users/risk-scores" None);
  mret (data response).

Definition getUserById
    (axiosInstance : Transport UserRiskData) (userId : string) : Outcome UserRiskData :=
  response ← axiosInstance (mkRequest GET ("/users/" +:+ userId) None);
  mret (data response).

Definition updateRiskScore
    (axiosInstance : Transport UpdateResult) (userId : string) (newScore : number)
    : Outcome UpdateResult :=
  response ←
    axiosInstance (mkRequest PUT ("/users/" +:+ userId +:+ "/update-score") (Some newScore));
  mret (data response).

(** The object literal [riskAPI]: its own property names and the
    function each one holds. *)
Inductive Member : Type := GetUserRiskScores | GetUserById | UpdateRiskScore.

Definition riskAPI : gmap string Member :=
  {[ "getUserRiskScores" := GetUserRiskScores;
     "getUserById" := GetUserById;
     "updateRiskScore" := UpdateRiskScore ]}.

(** [riskAPI.name(...)] as a caller writes it: a name the literal
    does not define reads as [undefined], and calling it throws a
    [TypeError] before any request is made; otherwise the call
    settles as the member's body [run] does. *)
Definition callMember {T : Type} (name : string) (run : Outcome T) : Outcome T :=
  match riskAPI !! name with
  | Some _ => run
  | None => Rejected ("TypeError: riskAPI." +:+ name +:+ " is not a function")
  end.

(** The backend operations the client is said to wrap, and the
    [riskAPI] property through which the pages reach each of them
    (the Recommendations page calls [fetch] itself). *)
Inductive BackendOperation : Type :=
  | RiskScoreListing
  | SingleUserLookup
  | UserActivityHistory
  | DashboardAggregateStats
  | RiskTrendSeries
  | RecommendationsListing
  | Prediction.

Definition backendOperations : list BackendOperation :=
  [RiskScoreListing; SingleUserLookup; UserActivityHistory;
   DashboardAggregateStats; RiskTrendSeries; RecommendationsListing; Prediction].

Definition clientFunction (op : BackendOperation) : option string :=
  match op with
  | RiskScoreListing => Some "getUserRiskScores"
  | SingleUserLookup => Some "getUserById"
  | UserActivityHistory => Some "getUserActivity"
  | DashboardAggregateStats => Some "getDashboardStats"
  | RiskTrendSeries => Some "getRiskTrends"
  | RecommendationsListing => None
  | Prediction => Some "predict"
  end.

Definition exposes (op : BackendOperation) : bool :=
  match clientFunction op with
  | Some name => bool_decide (is_Some (riskAPI !! name))
  | None => false
  end.

End Api.

(** ** pages/Users.tsx *)

Module Users.
Import Api.

Definition getRiskScoreColor (score : number) : string :=
  if num_geb score 40 then "text-red-600 dark:text-red-400"
  else if num_geb score 30 then "text-orange-600 dark:text-orange-400"
  else if num_geb score 20 then "text-yellow-600 dark:text-yellow-400"
  else "text-green-600 dark:text-green-400".

(** The inline conditional that colours the score bar of a row. *)
Definition scoreBarColor (score : number) : string :=
  if num_geb score 40 then "bg-red-500"
  else if num_geb score 30 then "bg-orange-500"
  else if num_geb score 20 then "bg-yellow-500"
  else "bg-green-500".

(** [filtered.sort((a, b) => b.current_score - a.current_score)]: a
    stable sort; [a] moves behind [b] exactly when the comparator is
    positive (a [NaN] difference counts as zero). *)
Fixpoint insertByScore (a : UserRiskData) (sorted : list UserRiskData)
    : list UserRiskData :=
  match sorted with
  | [] => [a]
  | b :: rest =>
      if num_pos (num_sub (current_score b) (current_score a))
      then b :: insertByScore a rest
      else a :: b :: rest
  end.

Definition sortByScoreDesc (l : list UserRiskData) : list UserRiskData :=
  foldr insertByScore [] l.

Record State : Type := mkState {
  users : option (list UserRiskData);   (* [None] is [undefined] *)
  filteredUsers : list UserRiskData;
  isLoading : bool;
  searchTerm : string;
  selectedFilter : string
}.

Definition initial : State := mkState (Some []) [] true "" "all".

Definition setUsers (v : option (list UserRiskData)) (s : State) : State :=
  mkState v (filteredUsers s) (isLoading s) (searchTerm s) (selectedFilter s).
Definition setFilteredUsers (v : list UserRiskData) (s : State) : State :=
  mkState (users s) v (isLoading s) (searchTerm s) (selectedFilter s).
Definition setIsLoading (v : bool) (s : State) : State :=
  mkState (users s) (filteredUsers s) v (searchTerm s) (selectedFilter s).
Definition setSearchTerm (v : string) (s : State) : State :=
  mkState (users s) (filteredUsers s) (isLoading s) v (selectedFilter s).
Definition setSelectedFilter (v : string) (s : State) : State :=
  mkState (users s) (filteredUsers s) (isLoading s) (searchTerm s) v.

(** [fetchUsers], once [riskAPI.getUserRiskScores()] has settled. *)
Definition fetchUsers (axiosInstance : Transport (list UserRiskData)) (s : State)
    : State * list Effect :=
  let '(s1, effects) :=
    match callMember "getUserRiskScores" (getUserRiskScores axiosInstance) with
    | Resolved response => (setUsers (array_data response) s, [])
    | Rejected error => (s, [ConsoleError "Failed to fetch users:"])
    end in
  (setIsLoading false s1, effects).

Section Filtering.
(** [String.prototype.toLowerCase], whatever it does to each
    string. *)
Variable toLowerCase : string → string.

Definition matchesSearch (term : string) (user : UserRiskData) : bool :=
  includes (toLowerCase (name user)) (toLowerCase term) ||
  includes (toLowerCase (email user)) (toLowerCase term).

Definition matchesLevel (selected : string) (user : UserRiskData) : bool :=
  String.eqb (toLowerCase (risk_level user)) selected.

(** The list [filterUsers] hands to [setFilteredUsers]. *)
Definition filterList (us : list UserRiskData) (term selected : string)
    : list UserRiskData :=
  let filtered := List.filter (matchesSearch term) us in
  let filtered :=
    if String.eqb selected "all" then filtered
    else List.filter (matchesLevel selected) filtered in
  sortByScoreDesc filtered.

(** [filterUsers] as the effect runs it: [users.filter] throws when
    [users] is [undefined]. *)
Definition filterUsers (s : State) : Outcome State :=
  match users s with
  | None =>
      Rejected "TypeError: Cannot read properties of undefined (reading 'filter')"
  | Some us =>
      Resolved (setFilteredUsers (filterList us (searchTerm s) (selectedFilter s)) s)
  end.

(** What the component returns: the spinner, or the header count
    "[shown] of [total] users" with the table rows (no row, and the
    "No users found" message, when [filteredUsers] is empty). *)
Inductive View : Type :=
  | Spinner
  | Page (shown total : nat) (rows : list UserRiskData).

Definition render (s : State) : Outcome View :=
  if isLoading s then Resolved Spinner
  else
    match users s with
    | None =>
        Rejected "TypeError: Cannot read properties of undefined (reading 'length')"
    | Some us =>
        Resolved (Page (length (filteredUsers s)) (length us) (filteredUsers s))
    end.

(** Mount, then the settling of the fetch: the state update, the
    render it triggers, and the filter effect that follows the
    change of [users] with its own render. *)
Definition mounted : Outcome State := filterUsers initial.

Definition pageAfterFetch (axiosInstance : Transport (list UserRiskData))
    : Outcome View * list Effect :=
  match mounted with
  | Rejected e => (Rejected e, [])
  | Resolved s0 =>
      let '(s1, effects) := fetchUsers axiosInstance s0 in
      (_ ← render s1; s2 ← filterUsers s1; render s2, effects)
  end.

(** Typing in the search box or choosing a level, followed by the
    filter effect. *)
Definition onSearchChange (term : string) (s : State) : Outcome State :=
  filterUsers (setSearchTerm term s).

Definition onFilterChange (selected : string) (s : State) : Outcome State :=
  filterUsers (setSelectedFilter selected s).

End Filtering.

Section Cards.
(** [String.prototype.toLowerCase] again. *)
Variable toLowerCase : string → string.

(** [levels.includes(u.risk_level.toLowerCase())] *)
Definition levelAmong (levels : list string) (u : UserRiskData) : bool :=
  existsb (String.eqb (toLowerCase (risk_level u))) levels.

Record StatCard : Type := mkStatCard {
  label : string;
  value : nat;
  color : string
}.

(** The four cards above the table; they count over [users], not over
    [filteredUsers]. *)
Definition statCards (us : list UserRiskData) : list StatCard :=
  [ mkStatCard "Total Users" (length us) "blue";
    mkStatCard "High Risk"
      (length (List.filter (levelAmong ["high"; "critical"]) us)) "red";
    mkStatCard "Medium Risk"
      (length (List.filter
                 (fun u => String.eqb (toLowerCase (risk_level u)) "medium") us)) "yellow";
    mkStatCard "Low Risk"
      (length (List.filter (levelAmong ["low"; "minimal"]) us)) "green" ].

Definition getRiskLevelColor (level : string) : string :=
  let l := toLowerCase level in
  if String.eqb l "critical"
  then "bg-red-100 text-red-800 dark:bg-red-900/20 dark:text-red-400"
  else if String.eqb l "high"
  then "bg-orange-100 text-orange-800 dark:bg-orange-900/20 dark:text-orange-400"
  else if String.eqb l "medium"
  then "bg-yellow-100 text-yellow-800 dark:bg-yellow-900/20 dark:text-yellow-400"
  else if String.eqb l "low"
  then "bg-green-100 text-green-800 dark:bg-green-900/20 dark:text-green-400"
  else "bg-gray-100 text-gray-800 dark:bg-gray-900/20 dark:text-gray-400".

End Cards.

(** The width, in per cent, of the score bar of a row:
    [Math.min((score / 50) * 100, 100)]. *)
Definition scoreBarWidth (score : number) : number :=
  num_min_const (num_mul_const (num_div_const score 50) 100) 100.

End Users.

(** ** pages/Dashboard.tsx *)

Module Dashboard.
Import Api.

Record DashboardStats : Type := mkStats {
  total_users : number;
  high_risk_users : number;
  recent_alerts : number;
  average_risk_score : number
}.

Record RiskTrend : Type := mkTrend { date : string; average_score : number }.

Record State : Type := mkState {
  stats : DashboardStats;
  trends : list RiskTrend;
  isLoading : bool
}.

Definition initial : State :=
  mkState (mkStats (Finite 0) (Finite 0) (Finite 0) (Finite 0)) [] true.

(** The expression [fetchDashboardData] awaits,
    [Promise.all([riskAPI.getDashboardStats(), riskAPI.getRiskTrends()])];
    the two arguments are what the bodies of such members would
    settle with. *)
Definition awaitDashboardData
    (getDashboardStats : Outcome (AxiosResponse DashboardStats))
    (getRiskTrends : Outcome (AxiosResponse (list RiskTrend)))
    : Outcome (AxiosResponse DashboardStats * AxiosResponse (list RiskTrend)) :=
  statsResponse ← callMember "getDashboardStats" getDashboardStats;
  trendsResponse ← callMember "getRiskTrends" getRiskTrends;
  mret (statsResponse, trendsResponse).

(** [fetchDashboardData] from the settling of that expression on. *)
Definition fetchDashboardData_settle
    (awaited : Outcome (AxiosResponse DashboardStats * AxiosResponse (list RiskTrend)))
    (s : State) : State * list Effect :=
  let '(s1, effects) :=
    match awaited with
    | Resolved (statsResponse, trendsResponse) =>
        (mkState (data statsResponse) (data trendsResponse) (isLoading s), [])
    | Rejected error => (s, [ConsoleError "Failed to fetch dashboard data:"])
    end in
  (mkState (stats s1) (trends s1) false, effects).

Definition fetchDashboardData
    (getDashboardStats : Outcome (AxiosResponse DashboardStats))
    (getRiskTrends : Outcome (AxiosResponse (list RiskTrend)))
    (s : State) : State * list Effect :=
  fetchDashboardData_settle (awaitDashboardData getDashboardStats getRiskTrends) s.


Section Cards.
(** [Number.prototype.toLocaleString] and
    [new Date(d).toLocaleDateString()], whatever the locale prints. *)
Variable toLocaleString : number → string.
Variable toLocaleDateString : string → string.

Record StatCard : Type := mkCard {
  title : string;
  value : string;
  color : string;
  change : string
}.

Definition statCards (s : State) : list StatCard :=
  [ mkCard "Total Users" (toLocaleString (total_users (stats s))) "blue" "+12%";
    mkCard "High Risk Users" (toLocaleString (high_risk_users (stats s))) "red" "-8%";
    mkCard "Recent Alerts" (toLocaleString (recent_alerts (stats s))) "orange" "+24%";
    mkCard "Avg Risk Score" (toFixed1 (average_risk_score (stats s))) "green" "-5%" ].

(** [lineChartData]: the labels and the one dataset. *)
Definition lineChartData (s : State) : list string * list number :=
  (map (fun trend => toLocaleDateString (date trend)) (trends s),
   map average_score (trends s)).

End Cards.

End Dashboard.

(** ** pages/UserDetail.tsx *)

Module UserDetail.
Import Api.

Record ActivityLog : Type := mkActivity {
  id : number;
  action : string;
  resource : option string;
  location : option string;
  success : bool;
  risk_score : number;
  timestamp : string
}.

Record State : Type := mkState {
  activities : list ActivityLog;
  isLoading : bool;
  user : option UserRiskData
}.

Definition initial : State := mkState [] true None.

(** The expression [fetchUserData] awaits,
    [Promise.all([riskAPI.getUserActivity(..), riskAPI.getUserRiskScores()])]. *)
Definition awaitUserData
    (getUserActivity : Outcome (AxiosResponse (list ActivityLog)))
    (axiosInstance : Transport (list UserRiskData))
    : Outcome (AxiosResponse (list ActivityLog) * list UserRiskData) :=
  activitiesResponse ← callMember "getUserActivity" getUserActivity;
  usersResponse ← callMember "getUserRiskScores" (getUserRiskScores axiosInstance);
  mret (activitiesResponse, usersResponse).

(** [fetchUserData] from the settling of that expression on.
    [usersResponse] is the array [getUserRiskScores] returns, so
    [usersResponse.data] is [undefined] and [.find] on it throws
    inside the [try].  (Were it an array,
    [u.user_id === parseInt(id)] would compare a string with a number
    and select no element.) *)
Definition fetchUserData_settle
    (awaited : Outcome (AxiosResponse (list ActivityLog) * list UserRiskData))
    (s : State) : State * list Effect :=
  let tried :=
    '(activitiesResponse, usersResponse) ← awaited;
    match array_data usersResponse with
    | None => Rejected "TypeError: Cannot read properties of undefined (reading 'find')"
    | Some us =>
        let userData := List.find (fun _ => false) us in
        mret (mkState (data activitiesResponse) (isLoading s) userData)
    end in
  let '(s1, effects) :=
    match tried with
    | Resolved s1 => (s1, [])
    | Rejected error => (s, [ConsoleError "Failed to fetch user data:"])
    end in
  (mkState (activities s1) false (user s1), effects).

Definition fetchUserData
    (getUserActivity : Outcome (AxiosResponse (list ActivityLog)))
    (axiosInstance : Transport (list UserRiskData))
    (s : State) : State * list Effect :=
  fetchUserData_settle (awaitUserData getUserActivity axiosInstance) s.

Definition getRiskScoreColor (score : number) : string :=
  if num_geb score 40 then "text-red-600 dark:text-red-400 bg-red-50 dark:bg-red-900/20"
  else if num_geb score 30 then "text-orange-600 dark:text-orange-400 bg-orange-50 dark:bg-orange-900/20"
  else if num_geb score 20 then "text-yellow-600 dark:text-yellow-400 bg-yellow-50 dark:bg-yellow-900/20"
  else "text-green-600 dark:text-green-400 bg-green-50 dark:bg-green-900/20".

Section Average.
(** The rounding of double arithmetic. *)
Variable round : Q → number.

(** [activities.reduce((sum, a) => sum + a.risk_score, 0)] *)
Definition sumRiskScores (acts : list ActivityLog) : number :=
  fold_left (fun sum a => num_add round sum (risk_score a)) acts (Finite 0).

(** The text of the "Avg Risk Score" card. *)
Definition avgRiskScoreText (acts : list ActivityLog) : string :=
  if (0 <? length acts)%nat
  then toFixed1 (num_div round (sumRiskScores acts) (length acts))
  else "0.0".

End Average.


Section Chart.
(** [new Date(t).toLocaleDateString()], whatever the locale prints. *)
Variable toLocaleDateString : string → string.

(** [chartData]: labels and the one dataset, over the last twenty
    activities. *)
Definition chartLabels (acts : list ActivityLog) : list string :=
  map (fun activity => toLocaleDateString (timestamp activity)) (sliceLast 20 acts).

Definition chartValues (acts : list ActivityLog) : list number :=
  map risk_score (sliceLast 20 acts).

End Chart.

(** The number on the "High Risk Events" card. *)
Definition highRiskEvents (acts : list ActivityLog) : nat :=
  length (List.filter (fun a => num_geb (risk_score a) 30) acts).

(** The heading of a timeline entry:
    [activity.action.replace('_', ' ').toUpperCase()]. *)
Definition actionTitle (toUpperCase : string → string) (act : string) : string :=
  toUpperCase (replaceFirstChar "_" " " act).

(** What the component returns: the spinner, the "User not found"
    notice, or the detail view. *)
Inductive View : Type :=
  | Spinner
  | NotFound
  | Detail (u : UserRiskData) (acts : list ActivityLog).

Definition render (s : State) : View :=
  if isLoading s then Spinner
  else
    match user s with
    | None => NotFound
    | Some u => Detail u (activities s)
    end.

(** Mount with the route parameter [id]: the effect fetches only when
    [id] is truthy, i.e. a non-empty string. *)
Definition pageAfterMount (id : option string)
    (getUserActivity : Outcome (AxiosResponse (list ActivityLog)))
    (axiosInstance : Transport (list UserRiskData)) : View * list Effect :=
  match id with
  | Some (String _ _) =>
      let '(s, effects) := fetchUserData getUserActivity axiosInstance initial in
      (render s, effects)
  | _ => (render initial, [])
  end.

End UserDetail.

(** ** pages/Recommendations.tsx *)

Module Recommendations.

Record Recommendation : Type := mkRecommendation {
  user_id : number;
  user_name : string;
  user_email : string;
  risk_score : number;
  risk_level : string;
  actions : list string;            (* the record's own [recommendations] *)
  recent_activity_count : number;
  last_updated : string
}.

Record RecommendationsData : Type := mkData {
  total_high_risk_users : number;
  recommendations : list Recommendation;
  generated_at : string
}.

(** What [fetch] resolves with: the [ok] flag of the status and the
    settling of [response.json()]. *)
Record FetchResponse : Type := mkFetchResponse {
  ok : bool;
  json : Outcome RecommendationsData
}.

Record State : Type := mkState {
  data : option RecommendationsData;
  isLoading : bool;
  isRefreshing : bool
}.

Definition initial : State := mkState None true false.

Definition fetchRecommendations (fetched : Outcome FetchResponse) (s : State)
    : State * list Effect :=
  let tried :=
    response ← fetched;
    if ok response
    then recommendationsData ← json response;
         mret (mkState (Some recommendationsData) (isLoading s) (isRefreshing s))
    else mret s in
  let '(s1, effects) :=
    match tried with
    | Resolved s1 => (s1, [])
    | Rejected error =>
        (s, [ConsoleError "Failed to fetch recommendations:";
             ToastError "Failed to load recommendations"])
    end in
  (mkState (data s1) false false, effects).

Definition handleRefresh (fetched : Outcome FetchResponse) (s : State)
    : State * list Effect :=
  let '(s1, effects) :=
    fetchRecommendations fetched (mkState (data s) (isLoading s) true) in
  (s1, (effects ++ [ToastSuccess "Recommendations updated"])%list).

(** The colour class of the icon [getPriorityIcon] returns. *)
Definition getPriorityIcon (riskScore : number) : string :=
  if num_geb riskScore 40 then "h-5 w-5 text-red-600" else "h-5 w-5 text-orange-600".

(** The cards of the page: one per element of [data.recommendations]. *)
Definition cards (s : State) : list Recommendation :=
  match data s with
  | Some d => recommendations d
  | None => []
  end.


(** The "Total Recommendations" figure:
    [data.recommendations.reduce((sum, rec) => sum + rec.recommendations.length, 0)]. *)
Definition totalRecommendations (d : RecommendationsData) : nat :=
  fold_left (fun sum rec => sum + length (actions rec))%nat (recommendations d) 0%nat.

(** The action rows the cards render, card after card. *)
Definition actionRows (d : RecommendationsData) : list string :=
  concat (map actions (recommendations d)).

Definition getRiskLevelColor (toLowerCase : string → string) (level : string) : string :=
  let l := toLowerCase level in
  if String.eqb l "critical"
  then "bg-red-100 text-red-800 dark:bg-red-900/20 dark:text-red-400"
  else if String.eqb l "high"
  then "bg-orange-100 text-orange-800 dark:bg-orange-900/20 dark:text-orange-400"
  else if String.eqb l "medium"
  then "bg-yellow-100 text-yellow-800 dark:bg-yellow-900/20 dark:text-yellow-400"
  else "bg-green-100 text-green-800 dark:bg-green-900/20 dark:text-green-400".

(** What the component returns: the spinner, or the page with its
    summary row (only when [data] is set) and either the cards or the
    "All Clear!" panel. *)
Inductive Body : Type :=
  | Cards (shown : list Recommendation)
  | AllClear.

Inductive View : Type :=
  | Spinner
  | Page (refreshDisabled : bool) (summary : option (number * nat * string)) (body : Body).

Definition render (s : State) : View :=
  if isLoading s then Spinner
  else
    Page (isRefreshing s)
      (match data s with
       | Some d => Some (total_high_risk_users d, totalRecommendations d, generated_at d)
       | None => None
       end)
      (match data s with
       | Some d => if (0 <? length (recommendations d))%nat
                   then Cards (recommendations d) else AllClear
       | None => AllClear
       end).

End Recommendations.

(** ** components/RiskSimulator.tsx *)

Module RiskSimulator.
Import Api.

Inductive value : Type :=
  | VNum (n : number)
  | VStr (s : string)
  | VBool (b : bool).

(** A [PredictionRequest] object: its properties by name. *)
Abbreviation PredictionRequest := (gmap string value).

Record PredictionResult : Type := mkResult {
  risk_score : number;
  explanation : string;
  recommendations : list string;
  timestamp : string
}.

Record State : Type := mkState {
  isLoading : bool;
  result : option PredictionResult;
  formData : PredictionRequest
}.

Definition initialFormData : PredictionRequest :=
  {[ "user_id" := VNum (Finite 1);
     "action" := VStr "login";
     "resource" := VStr "/admin/dashboard";
     "location" := VStr "192.168.1.100";
     "success" := VBool true;
     "login_frequency" := VNum (Finite 1);
     "failed_attempts" := VNum (Finite 0);
     "file_size" := VNum (Finite 0);
     "session_duration" := VNum (Finite 60) ]}.

Definition initial : State := mkState false None initialFormData.

Definition setIsLoading (v : bool) (s : State) : State :=
  mkState v (result s) (formData s).
Definition setResult (v : option PredictionResult) (s : State) : State :=
  mkState (isLoading s) v (formData s).
Definition setFormData (f : PredictionRequest → PredictionRequest) (s : State) : State :=
  mkState (isLoading s) (result s) (f (formData s)).

Definition getRiskColor (score : number) : string :=
  if num_geb score 40 then "text-red-600 bg-red-50 border-red-200"
  else if num_geb score 30 then "text-orange-600 bg-orange-50 border-orange-200"
  else if num_geb score 20 then "text-yellow-600 bg-yellow-50 border-yellow-200"
  else "text-green-600 bg-green-50 border-green-200".

(** [setFormData(prev => ({ ...prev, [field]: value }))] *)
Definition handleInputChange (field : string) (v : value) (s : State) : State :=
  setFormData (fun prev => <[field := v]> prev) s.

Record Scenario : Type := mkScenario {
  name : string;
  data : PredictionRequest
}.

Definition normalActivity : Scenario :=
  mkScenario "Normal Activity"
    {[ "action" := VStr "file_access";
       "resource" := VStr "/documents/report.pdf";
       "location" := VStr "192.168.1.100";
       "success" := VBool true;
       "failed_attempts" := VNum (Finite 0);
       "session_duration" := VNum (Finite 120) ]}.

Definition suspiciousLateAccess : Scenario :=
  mkScenario "Suspicious Late Access"
    {[ "action" := VStr "system_access";
       "resource" := VStr "/admin/config.php";
       "location" := VStr "203.0.113.42";
       "success" := VBool true;
       "failed_attempts" := VNum (Finite 0);
       "session_duration" := VNum (Finite 15) ]}.

Definition failedLoginAttempts : Scenario :=
  mkScenario "Failed Login Attempts"
    {[ "action" := VStr "login";
       "resource" := VStr "/login";
       "location" := VStr "198.51.100.30";
       "success" := VBool false;
       "failed_attempts" := VNum (Finite 5);
       "session_duration" := VNum (Finite 5) ]}.

Definition largeDataDownload : Scenario :=
  mkScenario "Large Data Download"
    {[ "action" := VStr "download";
       "resource" := VStr "/database/backup.sql";
       "location" := VStr "10.0.0.50";
       "success" := VBool true;
       "failed_attempts" := VNum (Finite 0);
       "file_size" := VNum (Finite 2048);
       "session_duration" := VNum (Finite 300) ]}.

Definition presetScenarios : list Scenario :=
  [normalActivity; suspiciousLateAccess; failedLoginAttempts; largeDataDownload].

(** The preset button: [setFormData(prev => ({ ...prev, ...scenario.data }))].
    The later spread wins, which is the left-biased union with the
    preset on the left. *)
Definition applyPreset (scenario : Scenario) (s : State) : State :=
  setFormData (fun prev => data scenario ∪ prev) s.

(** [handleSubmit] up to its [await]. *)
Definition handleSubmit_start (s : State) : State := setIsLoading true s.

(** [handleSubmit] from the settling of [riskAPI.predict(formData)]
    on: [try] body or [catch], then [finally]. *)
Definition handleSubmit_settle
    (predicted : Outcome (AxiosResponse PredictionResult)) (s : State)
    : State * list Effect :=
  let '(s1, effects) :=
    match predicted with
    | Resolved response =>
        (setResult (Some (Api.data response)) s,
         [ToastSuccess "Risk assessment completed!"])
    | Rejected error =>
        (s, [ToastError "Failed to assess risk";
             ConsoleError "Risk prediction error:"])
    end in
  (setIsLoading false s1, effects).

(** A whole submission against the client, [predict] being what the
    body of a [riskAPI.predict] would settle with. *)
Definition handleSubmit
    (predict : PredictionRequest → Outcome (AxiosResponse PredictionResult))
    (s : State) : State * list Effect :=
  let s1 := handleSubmit_start s in
  handleSubmit_settle (callMember "predict" (predict (formData s1))) s1.

(** [disabled={isLoading}] on the submit button. *)
Definition submitDisabled (s : State) : bool := isLoading s.

(** The component between events.  [inFlight] holds the requests
    whose [await] has not resumed yet.  The form has one submit
    button, so a submit event reaches [handleSubmit] only while that
    button is enabled (a disabled default button also blocks
    submission by the Enter key), and the state set by a handler is
    rendered before the next event is dispatched.  The other events
    may come at any time.  A call that throws before its [await], as a
    call of an undefined member does, is a [Submit] followed at once by
    its [Settle]. *)
Record Sys : Type := mkSys {
  ui : State;
  inFlight : list PredictionRequest;
  emitted : list Effect
}.

Inductive Event : Type :=
  | Submit
  | Settle (predicted : Outcome (AxiosResponse PredictionResult))
  | Preset (scenario : Scenario)
  | Input (field : string) (v : value).

Definition initialSys : Sys := mkSys initial [] [].

Definition fire (e : Event) (s : Sys) : option Sys :=
  match e with
  | Submit =>
      if submitDisabled (ui s) then None
      else Some (mkSys (handleSubmit_start (ui s))
                       (formData (ui s) :: inFlight s) (emitted s))
  | Settle predicted =>
      match inFlight s with
      | [] => None
      | _ :: rest =>
          let '(u, effects) := handleSubmit_settle predicted (ui s) in
          Some (mkSys u rest (emitted s ++ effects)%list)
      end
  | Preset scenario => Some (mkSys (applyPreset scenario (ui s)) (inFlight s) (emitted s))
  | Input field v => Some (mkSys (handleInputChange field v (ui s)) (inFlight s) (emitted s))
  end.

Fixpoint run (events : list Event) (s : Sys) : option Sys :=
  match events with
  | [] => Some s
  | e :: rest =>
      match fire e s with
      | Some s' => run rest s'
      | None => None
      end
  end.


(** Truthiness of a property read: [undefined], [0], [NaN], the empty
    string and [false] are falsy. *)
Definition truthy (v : option value) : bool :=
  match v with
  | None => false
  | Some (VNum (Finite q)) => negb (Qeq_bool q 0)
  | Some (VNum NaN) => false
  | Some (VNum _) => true
  | Some (VStr s) => negb (String.eqb s "")
  | Some (VBool b) => b
  end.

(** [formData.field || fallback], the [value] of an input. *)
Definition shownField (field : string) (fallback : value) (s : State) : value :=
  if truthy (formData s !! field) then default fallback (formData s !! field)
  else fallback.

Definition shownResource : State → value := shownField "resource" (VStr "").
Definition shownLocation : State → value := shownField "location" (VStr "").
Definition shownFailedAttempts : State → value :=
  shownField "failed_attempts" (VNum (Finite 0)).
Definition shownFileSize : State → value := shownField "file_size" (VNum (Finite 0)).
Definition shownSessionDuration : State → value :=
  shownField "session_duration" (VNum (Finite 60)).

(** The icon beside the score of the result panel:
    [result.risk_score >= 30 ? AlertTriangle : CheckCircle]. *)
Inductive ResultIcon : Type := AlertTriangle | CheckCircle.

Definition resultIcon (score : number) : ResultIcon :=
  if num_geb score 30 then AlertTriangle else CheckCircle.

Definition isToast (e : Effect) : bool :=
  match e with ConsoleError _ => false | _ => true end.

Definition isSubmit (e : Event) : bool :=
  match e with Submit => true | _ => false end.

End RiskSimulator.

(** ** components/Layout.tsx *)

Module Layout.

Record NavItem : Type := mkNav { name : string; href : string }.

Definition navigation : list NavItem :=
  [ mkNav "Dashboard" "/dashboard";
    mkNav "Users" "/users";
    mkNav "Recommendations" "/recommendations";
    mkNav "Settings" "/settings" ].

(** [isActive], over the [pathname] of the current location. *)
Definition isActive (pathname path : string) : bool := String.eqb pathname path.

Definition activeItems (pathname : string) : list NavItem :=
  List.filter (fun item => isActive pathname (href item)) navigation.

(** The signed-in user as the layout reads it: [user] may be [null],
    and [name] and [role] may be missing. *)
Record AuthUser : Type := mkAuthUser {
  userName : option string;
  role : option string
}.

(** [a || fallback] on an optional string. *)
Definition orString (a : option string) (fallback : string) : string :=
  match a with
  | Some (String c rest) => String c rest
  | _ => fallback
  end.

(** [user?.name?.charAt(0).toUpperCase() || '?'] *)
Definition avatarLetter (toUpperCase : string → string) (user : option AuthUser) : string :=
  orString (n ← user ≫= userName; Some (toUpperCase (charAt0 n))) "?".

(** [user?.name || 'User'] and [user?.role || 'Guest'] *)
Definition displayName (user : option AuthUser) : string :=
  orString (user ≫= userName) "User".

Definition displayRole (user : option AuthUser) : string :=
  orString (user ≫= role) "Guest".

End Layout.

(** ** pages/Settings.tsx *)

Module Settings.

Abbreviation SettingsData := (gmap string (gmap string RiskSimulator.value)).

Record State : Type := mkState {
  activeTab : string;
  isLoading : bool;
  settings : SettingsData
}.

Definition initialSettings : SettingsData :=
  {[ "profile" :=
       {[ "name" := RiskSimulator.VStr "John Doe";
          "email" := RiskSimulator.VStr "john@example.com";
          "role" := RiskSimulator.VStr "admin" ]};
     "security" :=
       {[ "riskThreshold" := RiskSimulator.VNum (Finite 30);
          "alertFrequency" := RiskSimulator.VStr "immediate";
          "mfaEnabled" := RiskSimulator.VBool true;
          "sessionTimeout" := RiskSimulator.VNum (Finite 60) ]};
     "notifications" :=
       {[ "emailAlerts" := RiskSimulator.VBool true;
          "pushNotifications" := RiskSimulator.VBool false;
          "weeklyReports" := RiskSimulator.VBool true;
          "criticalAlerts" := RiskSimulator.VBool true ]};
     "system" :=
       {[ "dataRetention" := RiskSimulator.VNum (Finite 90);
          "logLevel" := RiskSimulator.VStr "info";
          "apiRateLimit" := RiskSimulator.VNum (Finite 1000) ]} ]}.

Definition initial : State := mkState "profile" false initialSettings.

(** [{ ...prev, [section]: { ...prev[section], [field]: value } }];
    spreading a missing section adds nothing. *)
Definition updateSettings (section field : string) (v : RiskSimulator.value)
    (prev : SettingsData) : SettingsData :=
  <[section := <[field := v]> (default ∅ (prev !! section))]> prev.

Definition handleInputChange (section field : string) (v : RiskSimulator.value)
    (s : State) : State :=
  mkState (activeTab s) (isLoading s) (updateSettings section field v (settings s)).

(** The switch of a notification row:
    [handleInputChange('notifications', key, !value)], for a [key] that
    [Object.entries(settings.notifications)] lists. *)
Definition toggleNotification (key : string) (s : State) : State :=
  match settings s !! "notifications" ≫= (.!! key) with
  | Some v =>
      handleInputChange "notifications" key
        (RiskSimulator.VBool (negb (RiskSimulator.truthy (Some v)))) s
  | None => s
  end.

(** The heading of a notification row:
    [key.charAt(0).toUpperCase() + key.slice(1).replace(/([A-Z])/g, ' $1')]. *)
Definition isUpperAZ (c : ascii) : bool :=
  let n := nat_of_ascii c in (65 <=? n)%nat && (n <=? 90)%nat.

Fixpoint spaceBeforeCapitals (s : string) : string :=
  match s with
  | EmptyString => EmptyString
  | String c rest =>
      if isUpperAZ c then String " " (String c (spaceBeforeCapitals rest))
      else String c (spaceBeforeCapitals rest)
  end.

Definition notificationLabel (toUpperCase : string → string) (key : string) : string :=
  toUpperCase (charAt0 key) +:+ spaceBeforeCapitals (slice1 key).

Fixpoint removeSpaces (s : string) : string :=
  match s with
  | EmptyString => EmptyString
  | String c rest =>
      if Ascii.eqb c " " then removeSpaces rest else String c (removeSpaces rest)
  end.

Fixpoint countUpperAZ (s : string) : nat :=
  match s with
  | EmptyString => 0
  | String c rest => (if isUpperAZ c then 1 else 0) + countUpperAZ rest
  end.

End Settings.

(** * Vocabulary of the statements

    Predicates and sample data the properties below are stated with. *)

Local Open Scope nat_scope.

(** The double nearest to the literal [39.9], and the decimal itself. *)
Definition double_39_9 : Q := 5615425785377587 # 140737488355328.

Definition decimal_39_9 : Q := 399 # 10.

(** The unsorted selection behind [filterList]. *)
Definition selection (toLowerCase : string → string)
    (us : list Api.UserRiskData) (term selected : string) : list Api.UserRiskData :=
  let filtered := List.filter (Users.matchesSearch toLowerCase term) us in
  if String.eqb selected "all" then filtered
  else List.filter (Users.matchesLevel toLowerCase selected) filtered.

(** What a recomputation of the view model over the fetched array [us]
    must have produced: the effect ran to its end, [users] is still
    [us], and [filteredUsers] is a permutation of a sub-list of it. *)
Definition recomputedWithin (us : list Api.UserRiskData) (o : Outcome Users.State) : Prop :=
  ∃ s' : Users.State,
    o = Resolved s' ∧
    Users.users s' = Some us ∧
    (∃ kept, kept `sublist_of` us ∧ Users.filteredUsers s' ≡ₚ kept) ∧
    Users.filteredUsers s' ⊆+ us ∧
    length (Users.filteredUsers s') ≤ length us ∧
    (∀ shown total rows,
       Users.render s' = Resolved (Users.Page shown total rows) → shown ≤ total).

(** The invariant of the simulator: a request is in flight exactly
    while [isLoading] holds, and then it is the only one. *)
Definition oneInFlight (s : RiskSimulator.Sys) : Prop :=
  length (RiskSimulator.inFlight s) =
    if RiskSimulator.isLoading (RiskSimulator.ui s) then 1 else 0.

(** A failure of the Recommendations fetch that reaches its [catch]:
    the request rejects, or the body of an OK response does not
    parse. *)
Definition recommendationsFailure (fetched : Outcome Recommendations.FetchResponse) : bool :=
  match fetched with
  | Rejected _ => true
  | Resolved response =>
      Recommendations.ok response &&
      match Recommendations.json response with
      | Rejected _ => true
      | Resolved _ => false
      end
  end.



(** Three fetched users, a state of the Users page over them, and a
    run of the simulator. *)
Definition alice : Api.UserRiskData :=
  Api.mkUser "u1" "Alice" "alice@example.com" (Finite 42) "critical" "2024-05-01T10:00:00Z".

Definition bob : Api.UserRiskData :=
  Api.mkUser "u2" "Bob Stone" "bob@example.com" (Finite (451 # 10)) "High" "2024-05-01T10:05:00Z".

Definition carol : Api.UserRiskData :=
  Api.mkUser "u3" "carol" "carol@example.com" (Finite 12) "low" "2024-05-01T10:07:00Z".

Definition sampleUsersState : Users.State :=
  Users.mkState (Some [alice; bob; carol]) [] false "o" "high".

Definition sampleResult : RiskSimulator.PredictionResult :=
  RiskSimulator.mkResult (Finite 35) "Unusual access time" ["Review the session"]
    "2024-05-01T10:00:00Z".

Definition sampleEvents : list RiskSimulator.Event :=
  [RiskSimulator.Submit;
   RiskSimulator.Preset RiskSimulator.failedLoginAttempts;
   RiskSimulator.Settle (Resolved (Api.mkResponse sampleResult));
   RiskSimulator.Input "file_size" (RiskSimulator.VNum (Finite 10));
   RiskSimulator.Submit].

Definition sampleSys : RiskSimulator.Sys :=
  default RiskSimulator.initialSys (RiskSimulator.run sampleEvents RiskSimulator.initialSys).

Definition okButUnparsable : Outcome Recommendations.FetchResponse :=
  Resolved (Recommendations.mkFetchResponse true (Rejected "SyntaxError: Unexpected token")).

(** Descending order of scores, every earlier row at least as high as
    every later one. *)
Definition scoreDescending (l : list Api.UserRiskData) : Prop :=
  StronglySorted
    (fun a b => num_leb (Api.current_score b) (Api.current_score a) = true) l.

Definition notNaN (x : number) : bool :=
  match x with NaN => false | _ => true end.

(** The five risk levels, and the four that both level palettes know. *)
Definition riskLevels : list string := ["high"; "critical"; "medium"; "low"; "minimal"].
Definition paletteLevels : list string := ["critical"; "high"; "medium"; "low"].

(** Orange or red. *)
Definition isHot (sev : option Severity) : bool :=
  match sev with
  | Some Orange | Some Red => true
  | _ => false
  end.

(** [toUpperCase] restricted to the letters a-z. *)
Definition upper_ascii (c : ascii) : ascii :=
  let n := nat_of_ascii c in
  if (97 <=? n)%nat && (n <=? 122)%nat then ascii_of_nat (n - 32) else c.

Fixpoint asciiToUpperCase (s : string) : string :=
  match s with
  | EmptyString => EmptyString
  | String c s' => String (upper_ascii c) (asciiToUpperCase s')
  end.

(** * Properties *)

(** ** Severity banding *)

Lemma band_cases (score : number) :
  (num_geb score 40 = true ∧ spec_band score = Red) ∨
  (num_geb score 40 = false ∧ num_geb score 30 = true ∧ spec_band score = Orange) ∨
  (num_geb score 40 = false ∧ num_geb score 30 = false ∧
     num_geb score 20 = true ∧ spec_band score = Yellow) ∨
  (num_geb score 40 = false ∧ num_geb score 30 = false ∧
     num_geb score 20 = false ∧ spec_band score = Green).
Proof.
  unfold spec_band.
  destruct (num_geb score 40); [by left|].
  destruct (num_geb score 30); [right; by left|].
  destruct (num_geb score 20); [right; right; by left|].
  right; right; by right.
Qed.

Lemma num_geb_mono (a b : number) (k : Q) :
  num_leb a b = true → num_geb a k = true → num_geb b k = true.
Proof.
  destruct a as [qa| | |], b as [qb| | |]; simpl; try done.
  rewrite !Qle_bool_iff. intros Hab Hka. by eapply Qle_trans.
Qed.

Lemma spec_band_monotone (a b : number) :
  num_leb a b = true → severity_rank (spec_band a) ≤ severity_rank (spec_band b).
Proof.
  intros Hab.
  pose proof (num_geb_mono a b 40 Hab) as M40.
  pose proof (num_geb_mono a b 30 Hab) as M30.
  pose proof (num_geb_mono a b 20 Hab) as M20.
  unfold spec_band.
  destruct (num_geb a 40) eqn:A40.
  { rewrite M40 by done. done. }
  destruct (num_geb a 30) eqn:A30.
  { rewrite M30 by done. destruct (num_geb b 40); simpl; lia. }
  destruct (num_geb a 20) eqn:A20.
  { rewrite M20 by done.
    destruct (num_geb b 40), (num_geb b 30); simpl; lia. }
  destruct (num_geb b 40), (num_geb b 30), (num_geb b 20); simpl; lia.
Qed.

Lemma class_bands (score : number) :
  severity_of_class (Users.getRiskScoreColor score) = Some (spec_band score) ∧
  severity_of_class (Users.scoreBarColor score) = Some (spec_band score) ∧
  severity_of_class (RiskSimulator.getRiskColor score) = Some (spec_band score) ∧
  severity_of_class (UserDetail.getRiskScoreColor score) = Some (spec_band score).
Proof.
  unfold Users.getRiskScoreColor, Users.scoreBarColor, RiskSimulator.getRiskColor,
    UserDetail.getRiskScoreColor, spec_band.
  destruct (num_geb score 40); [by vm_compute|].
  destruct (num_geb score 30); [by vm_compute|].
  destruct (num_geb score 20); by vm_compute.
Qed.

(** C4. The Users table (score text and score bar), the Risk Simulator
    result panel and the UserDetail page all paint a score with the
    colour of the same banding: red from 40, orange from 30, yellow
    from 20, green below.  The banding is monotone in the score; 39.9
    is orange and 40.0 is red in each of them. *)
Theorem severity_banding_consistent :
  (∀ score : number,
     severity_of_class (Users.getRiskScoreColor score) = Some (spec_band score) ∧
     severity_of_class (Users.scoreBarColor score) = Some (spec_band score) ∧
     severity_of_class (RiskSimulator.getRiskColor score) = Some (spec_band score) ∧
     severity_of_class (UserDetail.getRiskScoreColor score) = Some (spec_band score)) ∧
  (∀ a b : number,
     num_leb a b = true → severity_rank (spec_band a) ≤ severity_rank (spec_band b)) ∧
  (∀ q : Q, q = double_39_9 ∨ q = decimal_39_9 →
     Users.getRiskScoreColor (Finite q) = "text-orange-600 dark:text-orange-400" ∧
     Users.scoreBarColor (Finite q) = "bg-orange-500" ∧
     RiskSimulator.getRiskColor (Finite q)
       = "text-orange-600 bg-orange-50 border-orange-200" ∧
     UserDetail.getRiskScoreColor (Finite q)
       = "text-orange-600 dark:text-orange-400 bg-orange-50 dark:bg-orange-900/20") ∧
  Users.getRiskScoreColor (Finite 40) = "text-red-600 dark:text-red-400" ∧
  Users.scoreBarColor (Finite 40) = "bg-red-500" ∧
  RiskSimulator.getRiskColor (Finite 40) = "text-red-600 bg-red-50 border-red-200" ∧
  UserDetail.getRiskScoreColor (Finite 40)
    = "text-red-600 dark:text-red-400 bg-red-50 dark:bg-red-900/20".
Proof.
  split; [exact class_bands|].
  split; [exact spec_band_monotone|].
  split; [|by vm_compute].
  intros q [-> | ->]; by vm_compute.
Qed.

(** ** The Users view model *)

Lemma insertByScore_perm (a : Api.UserRiskData) (l : list Api.UserRiskData) :
  Users.insertByScore a l ≡ₚ a :: l.
Proof.
  induction l as [|b rest IH]; simpl; [done|].
  destruct (num_pos _); [|done].
  rewrite IH. apply Permutation_swap.
Qed.

Lemma sortByScoreDesc_perm (l : list Api.UserRiskData) :
  Users.sortByScoreDesc l ≡ₚ l.
Proof.
  unfold Users.sortByScoreDesc.
  induction l as [|a rest IH]; simpl; [done|].
  by rewrite insertByScore_perm, IH.
Qed.

Lemma List_filter_sublist {A : Type} (f : A → bool) (l : list A) :
  List.filter f l `sublist_of` l.
Proof.
  induction l as [|x rest IH]; simpl; [constructor|].
  destruct (f x); by constructor.
Qed.



Lemma selection_sublist toLowerCase us term selected :
  selection toLowerCase us term selected `sublist_of` us.
Proof.
  unfold selection. destruct (String.eqb selected "all").
  - apply List_filter_sublist.
  - etrans; apply List_filter_sublist.
Qed.

Lemma filterList_selection toLowerCase us term selected :
  Users.filterList toLowerCase us term selected ≡ₚ selection toLowerCase us term selected.
Proof.
  unfold Users.filterList, selection.
  destruct (String.eqb selected "all"); apply sortByScoreDesc_perm.
Qed.

Lemma filterUsers_recomputedWithin
    (toLowerCase : string → string) (s : Users.State) (us : list Api.UserRiskData) :
  Users.users s = Some us → recomputedWithin us (Users.filterUsers toLowerCase s).
Proof.
  intros Hus. unfold recomputedWithin, Users.filterUsers. rewrite Hus.
  eexists. split; [done|]. simpl.
  assert (Users.filterList toLowerCase us (Users.searchTerm s) (Users.selectedFilter s)
            ⊆+ us) as Hsub.
  { rewrite filterList_selection. apply sublist_submseteq, selection_sublist. }
  split; [done|].
  split.
  { eexists. split; [apply selection_sublist|apply filterList_selection]. }
  split; [done|].
  split; [by apply submseteq_length|].
  intros shown total rows. unfold Users.render. simpl.
  destruct (Users.isLoading s); [done|]. rewrite Hus.
  intros [= <- <- _]. by apply submseteq_length.
Qed.

(** C10. Whenever the view model is recomputed over a fetched array
    [us] (the filter effect running as it is, or after a change of the
    search term or of the selected level), the recomputation succeeds,
    leaves [users] alone, and stores in [filteredUsers] a permutation
    of a sub-list of [us]; so [filteredUsers] is never longer than
    [users] and the "X of Y users" header never shows X above Y. *)
Theorem filteredUsers_within_users
    (toLowerCase : string → string) (s : Users.State) (us : list Api.UserRiskData) :
  Users.users s = Some us →
  recomputedWithin us (Users.filterUsers toLowerCase s) ∧
  (∀ term, recomputedWithin us (Users.onSearchChange toLowerCase term s)) ∧
  (∀ selected, recomputedWithin us (Users.onFilterChange toLowerCase selected s)).
Proof.
  intros Hus. split; [by apply filterUsers_recomputedWithin|].
  split; intros x; by apply filterUsers_recomputedWithin.
Qed.

Lemma filteredUsers_within_users_witness :
  recomputedWithin [alice; bob; carol] (Users.filterUsers asciiToLowerCase sampleUsersState) ∧
  (∀ term,
     recomputedWithin [alice; bob; carol]
       (Users.onSearchChange asciiToLowerCase term sampleUsersState)) ∧
  (∀ selected,
     recomputedWithin [alice; bob; carol]
       (Users.onFilterChange asciiToLowerCase selected sampleUsersState)).
Proof.
  apply (filteredUsers_within_users asciiToLowerCase sampleUsersState [alice; bob; carol]).
  reflexivity.
Defined.

Example sample_filteredUsers :
  Users.filterUsers asciiToLowerCase sampleUsersState =
    Resolved (Users.mkState (Some [alice; bob; carol]) [bob] false "o" "high").
Proof. by vm_compute. Qed.




(** ** The Risk Simulator form *)

Lemma applyPreset_lookup (scenario : RiskSimulator.Scenario) (s : RiskSimulator.State)
    (field : string) :
  RiskSimulator.formData (RiskSimulator.applyPreset scenario s) !! field =
    match RiskSimulator.data scenario !! field with
    | Some v => Some v
    | None => RiskSimulator.formData s !! field
    end.
Proof.
  unfold RiskSimulator.applyPreset, RiskSimulator.setFormData. simpl.
  rewrite lookup_union.
  destruct (RiskSimulator.data scenario !! field) as [v|] eqn:Hd.
  - by destruct (RiskSimulator.formData s !! field).
  - by rewrite (left_id None _).
Qed.

(** C6. Applying a preset to any draft gives every field the preset
    names the preset's value and leaves every other field of the draft,
    and the rest of the component state, as it was; the "Failed Login
    Attempts" preset does not name [file_size], which keeps its prior
    value. *)
Theorem preset_overwrites_only_its_fields
    (scenario : RiskSimulator.Scenario) (s : RiskSimulator.State) :
  (∀ field v,
     RiskSimulator.data scenario !! field = Some v →
     RiskSimulator.formData (RiskSimulator.applyPreset scenario s) !! field = Some v) ∧
  (∀ field,
     RiskSimulator.data scenario !! field = None →
     RiskSimulator.formData (RiskSimulator.applyPreset scenario s) !! field
       = RiskSimulator.formData s !! field) ∧
  RiskSimulator.isLoading (RiskSimulator.applyPreset scenario s) = RiskSimulator.isLoading s ∧
  RiskSimulator.result (RiskSimulator.applyPreset scenario s) = RiskSimulator.result s ∧
  RiskSimulator.data RiskSimulator.failedLoginAttempts !! "file_size" = None ∧
  RiskSimulator.formData
    (RiskSimulator.applyPreset RiskSimulator.failedLoginAttempts s) !! "file_size"
    = RiskSimulator.formData s !! "file_size" ∧
  RiskSimulator.formData
    (RiskSimulator.applyPreset RiskSimulator.failedLoginAttempts s) !! "failed_attempts"
    = Some (RiskSimulator.VNum (Finite 5)).
Proof.
  split; [intros field v Hd; by rewrite applyPreset_lookup, Hd|].
  split; [intros field Hd; by rewrite applyPreset_lookup, Hd|].
  split; [done|]. split; [done|].
  assert (RiskSimulator.data RiskSimulator.failedLoginAttempts !! "file_size" = None)
    as Hfs by by vm_compute.
  split; [done|].
  split; [by rewrite applyPreset_lookup, Hfs|].
  rewrite applyPreset_lookup. by vm_compute.
Qed.

(** C7. A submission that fails, whatever the error and whatever was
    displayed, emits exactly one failure notification (and a console
    line), leaves the displayed result and the draft untouched, and
    re-enables the submit control, so that a new submit event is
    accepted. *)
Theorem failed_submission_keeps_result
    (s : RiskSimulator.State) (err : string) :
  let submitting := RiskSimulator.handleSubmit_start s in
  let after := RiskSimulator.handleSubmit_settle (Rejected err) submitting in
  RiskSimulator.submitDisabled submitting = true ∧
  after.2 = [ToastError "Failed to assess risk"; ConsoleError "Risk prediction error:"] ∧
  failureNotifications after.2 = 1 ∧
  RiskSimulator.result after.1 = RiskSimulator.result s ∧
  RiskSimulator.formData after.1 = RiskSimulator.formData s ∧
  RiskSimulator.submitDisabled after.1 = false ∧
  (∀ pending emitted,
     is_Some (RiskSimulator.fire RiskSimulator.Submit
                (RiskSimulator.mkSys after.1 pending emitted))).
Proof.
  simpl. repeat split; done.
Qed.

(** *** One request at a time *)

Lemma settle_isLoading predicted u :
  RiskSimulator.isLoading (RiskSimulator.handleSubmit_settle predicted u).1 = false.
Proof. unfold RiskSimulator.handleSubmit_settle. by destruct predicted. Qed.

Lemma fire_oneInFlight (e : RiskSimulator.Event) (s s' : RiskSimulator.Sys) :
  oneInFlight s → RiskSimulator.fire e s = Some s' → oneInFlight s'.
Proof.
  unfold oneInFlight. destruct s as [u pending out]. simpl.
  destruct e as [|predicted|scenario|field v]; simpl.
  - unfold RiskSimulator.submitDisabled.
    destruct (RiskSimulator.isLoading u) eqn:Hl; [done|].
    intros Hlen [= <-]. simpl. by rewrite Hlen.
  - destruct pending as [|req rest]; [done|].
    pose proof (settle_isLoading predicted u) as Hset.
    destruct (RiskSimulator.handleSubmit_settle predicted u) as [u' effects].
    simpl in Hset. intros Hlen [= <-]. simpl. rewrite Hset.
    destruct (RiskSimulator.isLoading u); simpl in Hlen; lia.
  - intros Hlen [= <-]. by simpl.
  - intros Hlen [= <-]. by simpl.
Qed.

Lemma run_oneInFlight (events : list RiskSimulator.Event) (s s' : RiskSimulator.Sys) :
  oneInFlight s → RiskSimulator.run events s = Some s' → oneInFlight s'.
Proof.
  revert s. induction events as [|e rest IH]; intros s Hinv; simpl.
  - by intros [= <-].
  - destruct (RiskSimulator.fire e s) as [s1|] eqn:Hfire; [|done].
    apply IH. by eapply fire_oneInFlight.
Qed.

(** C8. In every state the component reaches from its initial one, by
    any sequence of submit events, settled responses, preset clicks and
    field edits, at most one prediction request is in flight; while one
    is, the submit control is disabled and a submit event starts
    nothing; and the control is disabled only while one is. *)
Theorem single_submission_in_flight
    (events : list RiskSimulator.Event) (s : RiskSimulator.Sys) :
  RiskSimulator.run events RiskSimulator.initialSys = Some s →
  length (RiskSimulator.inFlight s) ≤ 1 ∧
  (RiskSimulator.inFlight s ≠ [] ↔
     RiskSimulator.submitDisabled (RiskSimulator.ui s) = true) ∧
  (RiskSimulator.inFlight s ≠ [] → RiskSimulator.fire RiskSimulator.Submit s = None) ∧
  (RiskSimulator.inFlight s = [] →
     ∃ s', RiskSimulator.fire RiskSimulator.Submit s = Some s' ∧
           RiskSimulator.inFlight s' = [RiskSimulator.formData (RiskSimulator.ui s)] ∧
           RiskSimulator.submitDisabled (RiskSimulator.ui s') = true).
Proof.
  intros Hrun.
  assert (oneInFlight s) as Hinv.
  { eapply run_oneInFlight; [|exact Hrun]. reflexivity. }
  unfold oneInFlight in Hinv. unfold RiskSimulator.fire, RiskSimulator.submitDisabled.
  destruct (RiskSimulator.isLoading (RiskSimulator.ui s)) eqn:Hl;
    destruct (RiskSimulator.inFlight s) as [|req rest] eqn:Hp; simpl in Hinv; try lia.
  - split; [simpl; lia|]. split; [done|]. split; [done|]. done.
  - split; [simpl; lia|]. split; [split; [done|done]|]. split; [done|].
    intros _. eexists. split; [done|]. by simpl.
Qed.

Lemma single_submission_in_flight_witness :
  length (RiskSimulator.inFlight sampleSys) ≤ 1 ∧
  (RiskSimulator.inFlight sampleSys ≠ [] ↔
     RiskSimulator.submitDisabled (RiskSimulator.ui sampleSys) = true) ∧
  (RiskSimulator.inFlight sampleSys ≠ [] →
     RiskSimulator.fire RiskSimulator.Submit sampleSys = None) ∧
  (RiskSimulator.inFlight sampleSys = [] →
     ∃ s', RiskSimulator.fire RiskSimulator.Submit sampleSys = Some s' ∧
           RiskSimulator.inFlight s' = [RiskSimulator.formData (RiskSimulator.ui sampleSys)] ∧
           RiskSimulator.submitDisabled (RiskSimulator.ui s') = true).
Proof.
  apply (single_submission_in_flight sampleEvents sampleSys).
  reflexivity.
Defined.

(** ** The average-risk card of UserDetail *)

Lemma num_div_zero_not_finite (round : Q → number) (x : number) :
  is_finite (num_div round x 0) = false.
Proof.
  destruct x as [q| | |]; simpl; try done.
  destruct (Qeq_bool q 0); [done|]. by destruct (Qle_bool q 0).
Qed.

(** C9. The text of the average card is defined for every activities
    list, whatever double arithmetic rounds to: for the empty list it
    is the literal "0.0" and no division takes place; for a non-empty
    list it is the one-decimal print of the sum over the (non-zero)
    length, that is, of the rounded quotient whenever the sum is
    finite.  Dividing by a zero length, which the guard excludes, would
    never give a finite number: on the empty list it would print
    "NaN". *)
Theorem avgRiskScore_guarded (round : Q → number) (acts : list UserDetail.ActivityLog) :
  (acts = [] → UserDetail.avgRiskScoreText round acts = "0.0") ∧
  (acts ≠ [] →
     length acts ≠ 0 ∧
     UserDetail.avgRiskScoreText round acts =
       toFixed1 (num_div round (UserDetail.sumRiskScores round acts) (length acts))) ∧
  (acts ≠ [] →
     ∀ q, UserDetail.sumRiskScores round acts = Finite q →
          UserDetail.avgRiskScoreText round acts =
            toFixed1 (round (q / inject_Z (Z.of_nat (length acts)))%Q)) ∧
  (∀ x, is_finite (num_div round x 0) = false) ∧
  toFixed1 (num_div round (UserDetail.sumRiskScores round [])
              (length (@nil UserDetail.ActivityLog)))
    = "NaN".
Proof.
  split; [by intros ->|].
  split.
  { destruct acts as [|a rest]; [done|]. intros _. by split. }
  split; [|split; [apply num_div_zero_not_finite|by vm_compute]].
  destruct acts as [|a rest]; [done|]. intros _ q Hsum.
  unfold UserDetail.avgRiskScoreText. rewrite Hsum. reflexivity.
Qed.

(** ** The API client and the fetches of the pages *)

Lemma callMember_defined {T : Type} (name : string) (run : Outcome T) :
  is_Some (Api.riskAPI !! name) → Api.callMember name run = run.
Proof. unfold Api.callMember. by intros [m ->]. Qed.

Lemma callMember_undefined {T : Type} (name : string) (run : Outcome T) :
  Api.riskAPI !! name = None →
  Api.callMember name run = Rejected ("TypeError: riskAPI." +:+ name +:+ " is not a function").
Proof. unfold Api.callMember. by intros ->. Qed.

Lemma callMember_getUserRiskScores {T : Type} (run : Outcome T) :
  Api.callMember "getUserRiskScores" run = run.
Proof. apply callMember_defined. eexists. vm_compute. reflexivity. Qed.

(** Each function the client does define is one round trip that hands
    back the body of the response, or the error the transport failed
    with. *)
Lemma riskAPI_functions_round_trip :
  (∀ axiosInstance,
     Api.getUserRiskScores axiosInstance =
       match axiosInstance (Api.mkRequest Api.GET "/users/risk-scores" None) with
       | Resolved response => Resolved (Api.data response)
       | Rejected err => Rejected err
       end) ∧
  (∀ axiosInstance userId,
     Api.getUserById axiosInstance userId =
       match axiosInstance (Api.mkRequest Api.GET ("/users/" +:+ userId) None) with
       | Resolved response => Resolved (Api.data response)
       | Rejected err => Rejected err
       end) ∧
  (∀ axiosInstance userId newScore,
     Api.updateRiskScore axiosInstance userId newScore =
       match axiosInstance (Api.mkRequest Api.PUT ("/users/" +:+ userId +:+ "/update-score")
                              (Some newScore)) with
       | Resolved response => Resolved (Api.data response)
       | Rejected err => Rejected err
       end).
Proof. repeat split. Qed.

(** C1, evaluated on the client as written. Of the seven operations
    only the risk-score listing and the single-user lookup have a
    function in [riskAPI] (its members are [getUserRiskScores],
    [getUserById] and [updateRiskScore]); [predict], [getUserActivity],
    [getDashboardStats] and [getRiskTrends], which the pages call, are
    not defined.  A simulator submission therefore ends in its [catch]
    whatever a prediction would have answered. *)
Theorem riskAPI_missing_operations :
  dom Api.riskAPI = ({[ "getUserRiskScores"; "getUserById"; "updateRiskScore" ]} : gset string) ∧
  List.filter Api.exposes Api.backendOperations
    = [Api.RiskScoreListing; Api.SingleUserLookup] ∧
  Api.riskAPI !! "predict" = None ∧
  Api.riskAPI !! "getUserActivity" = None ∧
  Api.riskAPI !! "getDashboardStats" = None ∧
  Api.riskAPI !! "getRiskTrends" = None ∧
  (∀ predict,
     RiskSimulator.handleSubmit predict RiskSimulator.initial =
       (RiskSimulator.initial,
        [ToastError "Failed to assess risk"; ConsoleError "Risk prediction error:"])).
Proof.
  split; [by vm_compute|].
  split; [by vm_compute|].
  assert (Api.riskAPI !! "predict" = None) as Hp by by vm_compute.
  repeat (split; [by vm_compute|]).
  intros predict. unfold RiskSimulator.handleSubmit.
  by rewrite (callMember_undefined _ _ Hp).
Qed.

Lemma mounted_initial (toLowerCase : string → string) :
  Users.mounted toLowerCase = Resolved Users.initial.
Proof. reflexivity. Qed.

Lemma fetchUsers_resolved (body : list Api.UserRiskData) (s : Users.State)
    (axiosInstance : Api.Transport (list Api.UserRiskData)) :
  axiosInstance (Api.mkRequest Api.GET "/users/risk-scores" None)
    = Resolved (Api.mkResponse body) →
  Api.getUserRiskScores axiosInstance = Resolved body ∧
  Users.fetchUsers axiosInstance s =
    (Users.mkState None (Users.filteredUsers s) false
       (Users.searchTerm s) (Users.selectedFilter s), []).
Proof.
  intros Hget.
  assert (Api.getUserRiskScores axiosInstance = Resolved body) as Hbody.
  { unfold Api.getUserRiskScores. by rewrite Hget. }
  split; [done|].
  unfold Users.fetchUsers.
  rewrite callMember_getUserRiskScores.
  by rewrite Hbody.
Qed.

(** C2, evaluated on the Users page as written. [getUserRiskScores]
    returns the array of the response, [fetchUsers] stores the [data]
    property of that array, which is [undefined], and the page then
    throws on [users.length] instead of rendering one row per fetched
    user: for the one-user answer [[alice]] no row is rendered. *)
Theorem users_rows_lost_on_success
    (toLowerCase : string → string) (body : list Api.UserRiskData) :
  let axiosInstance := fun _ : Api.Request => Resolved (Api.mkResponse body) in
  Api.getUserRiskScores axiosInstance = Resolved body ∧
  Users.users (Users.fetchUsers axiosInstance Users.initial).1 = None ∧
  Users.isLoading (Users.fetchUsers axiosInstance Users.initial).1 = false ∧
  (∃ err, Users.pageAfterFetch toLowerCase axiosInstance = (Rejected err, [])) ∧
  (∃ err, Users.filterUsers toLowerCase (Users.fetchUsers axiosInstance Users.initial).1
          = Rejected err) ∧
  Users.pageAfterFetch asciiToLowerCase
    (fun _ => Resolved (Api.mkResponse [alice])) ≠
    (Resolved (Users.Page 1 1 [alice]), []).
Proof.
  intros axiosInstance.
  destruct (fetchUsers_resolved body Users.initial axiosInstance eq_refl) as [Hb Hf].
  split; [done|]. rewrite Hf. split; [done|]. split; [done|].
  split; [|split; [by eexists|by vm_compute]].
  unfold Users.pageAfterFetch. rewrite mounted_initial. rewrite Hf. by eexists.
Qed.

(** C3, as stated, fails: a failed fetch on the Users page is logged
    but no notification is shown. *)
Lemma users_fetch_failure_shows_no_toast :
  (Users.fetchUsers (fun _ => Rejected "Network Error") Users.initial).2
    = [ConsoleError "Failed to fetch users:"] ∧
  failureNotifications
    (Users.fetchUsers (fun _ => Rejected "Network Error") Users.initial).2 ≠ 1.
Proof. by vm_compute. Qed.

(** C3, amended. A page-level fetch that fails is caught in the page,
    logged to the console with one line, ends the loading state and
    leaves the data of the page as it was (empty on first load, stale
    otherwise), nothing being thrown; the Recommendations page also
    shows exactly one failure notification, the Users, Dashboard and
    UserDetail pages show none. *)
Theorem page_fetch_failures_contained :
  (∀ toLowerCase axiosInstance err s,
     axiosInstance (Api.mkRequest Api.GET "/users/risk-scores" None) = Rejected err →
     Users.fetchUsers axiosInstance s =
       (Users.setIsLoading false s, [ConsoleError "Failed to fetch users:"]) ∧
     Users.pageAfterFetch toLowerCase axiosInstance =
       (Resolved (Users.Page 0 0 []), [ConsoleError "Failed to fetch users:"])) ∧
  (∀ err s,
     Dashboard.fetchDashboardData_settle (Rejected err) s =
       (Dashboard.mkState (Dashboard.stats s) (Dashboard.trends s) false,
        [ConsoleError "Failed to fetch dashboard data:"])) ∧
  (∀ err s,
     UserDetail.fetchUserData_settle (Rejected err) s =
       (UserDetail.mkState (UserDetail.activities s) false (UserDetail.user s),
        [ConsoleError "Failed to fetch user data:"])) ∧
  (∀ fetched s,
     recommendationsFailure fetched = true →
     Recommendations.fetchRecommendations fetched s =
       (Recommendations.mkState (Recommendations.data s) false false,
        [ConsoleError "Failed to fetch recommendations:";
         ToastError "Failed to load recommendations"]) ∧
     failureNotifications (Recommendations.fetchRecommendations fetched s).2 = 1 ∧
     consoleLines (Recommendations.fetchRecommendations fetched s).2 = 1 ∧
     Recommendations.cards (Recommendations.fetchRecommendations fetched s).1
       = Recommendations.cards s).
Proof.
  split.
  { intros toLowerCase axiosInstance err s Hget.
    assert (∀ s0, Users.fetchUsers axiosInstance s0 =
              (Users.setIsLoading false s0, [ConsoleError "Failed to fetch users:"])) as Hf.
    { intros s0. unfold Users.fetchUsers.
      rewrite callMember_getUserRiskScores.
      unfold Api.getUserRiskScores. by rewrite Hget. }
    split; [apply Hf|].
    unfold Users.pageAfterFetch. rewrite mounted_initial. by rewrite Hf. }
  split; [done|]. split; [done|].
  intros fetched s Hfail.
  assert (Recommendations.fetchRecommendations fetched s =
            (Recommendations.mkState (Recommendations.data s) false false,
             [ConsoleError "Failed to fetch recommendations:";
              ToastError "Failed to load recommendations"])) as ->.
  { unfold Recommendations.fetchRecommendations.
    destruct fetched as [response|err]; simpl in *; [|done].
    destruct (Recommendations.ok response); [|done].
    by destruct (Recommendations.json response). }
  done.
Qed.

(** A non-OK status on the Recommendations page does not reach the
    [catch]: nothing is logged or notified and the data stay. *)
Lemma fetchRecommendations_not_ok (response : Recommendations.FetchResponse)
    (s : Recommendations.State) :
  Recommendations.ok response = false →
  Recommendations.fetchRecommendations (Resolved response) s =
    (Recommendations.mkState (Recommendations.data s) false false, []).
Proof.
  intros Hok. unfold Recommendations.fetchRecommendations. simpl. by rewrite Hok.
Qed.

(** A successful Recommendations fetch renders one card per element of
    the answered array. *)
Lemma fetchRecommendations_cards (d : Recommendations.RecommendationsData)
    (s : Recommendations.State) :
  let after :=
    Recommendations.fetchRecommendations
      (Resolved (Recommendations.mkFetchResponse true (Resolved d))) s in
  after.2 = [] ∧
  Recommendations.isLoading after.1 = false ∧
  length (Recommendations.cards after.1) = length (Recommendations.recommendations d).
Proof. done. Qed.

(** On a failed refresh the failure notification is followed by the
    unconditional "updated" one. *)
Lemma handleRefresh_failure (err : string) (s : Recommendations.State) :
  Recommendations.handleRefresh (Rejected err) s =
    (Recommendations.mkState (Recommendations.data s) false false,
     [ConsoleError "Failed to fetch recommendations:";
      ToastError "Failed to load recommendations";
      ToastSuccess "Recommendations updated"]).
Proof. done. Qed.

(** With [getDashboardStats] and [getUserActivity] undefined in
    [riskAPI], the Dashboard and UserDetail fetches end in their
    [catch] whatever the backend would answer. *)
Lemma dashboard_and_detail_fetches_fail :
  (∀ getDashboardStats getRiskTrends s,
     Dashboard.fetchDashboardData getDashboardStats getRiskTrends s =
       (Dashboard.mkState (Dashboard.stats s) (Dashboard.trends s) false,
        [ConsoleError "Failed to fetch dashboard data:"])) ∧
  (∀ getUserActivity axiosInstance s,
     UserDetail.fetchUserData getUserActivity axiosInstance s =
       (UserDetail.mkState (UserDetail.activities s) false (UserDetail.user s),
        [ConsoleError "Failed to fetch user data:"])).
Proof.
  split.
  - intros a b s. unfold Dashboard.fetchDashboardData, Dashboard.awaitDashboardData.
    by rewrite (callMember_undefined "getDashboardStats") by by vm_compute.
  - intros a t s. unfold UserDetail.fetchUserData, UserDetail.awaitUserData.
    by rewrite (callMember_undefined "getUserActivity") by by vm_compute.
Qed.

(** The priority icon of a recommendation card has two colours only;
    it turns red at the same threshold of 40. *)
Lemma getPriorityIcon_bands (score : number) :
  severity_of_class (Recommendations.getPriorityIcon score) =
    Some (if num_geb score 40 then Red else Orange).
Proof. unfold Recommendations.getPriorityIcon. by destruct (num_geb score 40). Qed.

Lemma page_fetch_failures_contained_witness :
  Users.pageAfterFetch asciiToLowerCase (fun _ => Rejected "Network Error") =
    (Resolved (Users.Page 0 0 []), [ConsoleError "Failed to fetch users:"]) ∧
  failureNotifications
    (Recommendations.fetchRecommendations okButUnparsable Recommendations.initial).2 = 1.
Proof.
  destruct page_fetch_failures_contained as (HU & _ & _ & HR).
  split.
  - apply (HU asciiToLowerCase (fun _ => Rejected "Network Error") "Network Error"
             Users.initial).
    reflexivity.
  - apply (HR okButUnparsable Recommendations.initial). reflexivity.
Defined.

(** * Further properties of the pages *)

Local Open Scope list_scope.

(** ** Users: filtering, ordering, cards *)

Lemma List_filter_elem_of {A : Type} (f : A → bool) (l : list A) (x : A) :
  x ∈ List.filter f l ↔ x ∈ l ∧ f x = true.
Proof. rewrite !list_elem_of_In. apply filter_In. Qed.

(** X1. A user is listed after filtering exactly when it was fetched,
    its lower-cased name or e-mail contains the lower-cased term, and
    the level filter is "all" or equals its lower-cased risk level. *)
Theorem filterList_membership
    (toLowerCase : string → string) (us : list Api.UserRiskData)
    (term selected : string) (u : Api.UserRiskData) :
  u ∈ Users.filterList toLowerCase us term selected ↔
  u ∈ us ∧
  Users.matchesSearch toLowerCase term u = true ∧
  (selected = "all" ∨ toLowerCase (Api.risk_level u) = selected).
Proof.
  rewrite filterList_selection. unfold selection.
  destruct (String.eqb_spec selected "all") as [->|Hne].
  - rewrite List_filter_elem_of.
    split; [intros [Hin Hs]|intros (Hin & Hs & _)]; auto.
  - rewrite !List_filter_elem_of. unfold Users.matchesLevel.
    rewrite String.eqb_eq.
    split; [intros [[Hin Hs] Hl]; auto|].
    intros (Hin & Hs & [Hall|Hl]); [done|auto].
Qed.

Lemma List_filter_Forall {A : Type} (P : A → Prop) (f : A → bool) (l : list A) :
  Forall P l → Forall P (List.filter f l).
Proof.
  induction 1 as [|x rest Hx Hrest IH]; simpl; [constructor|].
  destruct (f x); [by constructor|done].
Qed.

Lemma num_leb_trans (x y z : number) :
  num_leb x y = true → num_leb y z = true → num_leb x z = true.
Proof.
  destruct x as [a| | |], y as [b| | |], z as [c| | |]; simpl; try done.
  rewrite !Qle_bool_iff. apply Qle_trans.
Qed.

Lemma comparator_not_positive (a b : number) :
  notNaN a = true → notNaN b = true →
  num_pos (num_sub b a) = false → num_leb b a = true.
Proof.
  destruct a as [qa| | |], b as [qb| | |]; simpl; try done.
  intros _ _ H. apply negb_false_iff in H.
  rewrite Qle_bool_iff in *. lra.
Qed.

Lemma comparator_positive (a b : number) :
  num_pos (num_sub b a) = true → num_leb a b = true.
Proof.
  destruct a as [qa| | |], b as [qb| | |]; simpl; try done.
  intros H. apply negb_true_iff in H.
  rewrite Qle_bool_iff. destruct (Qlt_le_dec qb qa) as [Hlt|Hle]; [|done].
  exfalso. apply not_true_iff_false in H. apply H. rewrite Qle_bool_iff. lra.
Qed.

Lemma insertByScore_descending (a : Api.UserRiskData) (l : list Api.UserRiskData) :
  notNaN (Api.current_score a) = true →
  Forall (fun u => notNaN (Api.current_score u) = true) l →
  scoreDescending l → scoreDescending (Users.insertByScore a l).
Proof.
  intros Ha Hall. unfold scoreDescending.
  induction 1 as [|b rest Hrest IH Hb]; simpl.
  - repeat constructor.
  - apply Forall_cons in Hall as [Hnb Hall].
    destruct (num_pos _) eqn:Hcmp.
    + constructor; [by apply IH|].
      rewrite insertByScore_perm. constructor; [|done].
      by apply comparator_positive.
    + assert (num_leb (Api.current_score b) (Api.current_score a) = true) as Hba
        by by apply comparator_not_positive.
      constructor; [by constructor|].
      constructor; [done|].
      eapply Forall_impl; [exact Hb|]. simpl. intros y Hy.
      by eapply num_leb_trans.
Qed.

Lemma sortByScoreDesc_descending (l : list Api.UserRiskData) :
  Forall (fun u => notNaN (Api.current_score u) = true) l →
  scoreDescending (Users.sortByScoreDesc l).
Proof.
  unfold Users.sortByScoreDesc.
  induction 1 as [|a rest Ha Hrest IH]; simpl; [constructor|].
  apply insertByScore_descending; [done| |done].
  fold (Users.sortByScoreDesc rest). by rewrite sortByScoreDesc_perm.
Qed.

(** X2. When no fetched score is [NaN], the filtered rows are in
    descending order of score: every row's score is at least that of
    every row below it. *)
Theorem filterList_descending
    (toLowerCase : string → string) (us : list Api.UserRiskData) (term selected : string) :
  Forall (fun u => notNaN (Api.current_score u) = true) us →
  scoreDescending (Users.filterList toLowerCase us term selected).
Proof.
  intros Hall. unfold Users.filterList. cbv zeta.
  apply sortByScoreDesc_descending.
  destruct (String.eqb selected "all"); auto using List_filter_Forall.
Qed.

Lemma filterList_descending_witness :
  scoreDescending (Users.filterList asciiToLowerCase [alice; bob; carol] "" "all").
Proof.
  apply (filterList_descending asciiToLowerCase [alice; bob; carol] "" "all").
  repeat constructor.
Defined.

(** Membership of a string in a list of literals, and its refutation
    from the disequalities at hand. *)
Ltac in_literals := apply list_elem_of_In; simpl; auto 10.
Ltac not_in_literals :=
  let Hin := fresh "Hin" in
  intros Hin; apply list_elem_of_In in Hin; simpl in Hin; intuition congruence.

Lemma level_classes (x : string) :
  Nat.b2n (existsb (String.eqb x) ["high"; "critical"]) +
    Nat.b2n (String.eqb x "medium") +
    Nat.b2n (existsb (String.eqb x) ["low"; "minimal"]) ≤ 1 ∧
  (Nat.b2n (existsb (String.eqb x) ["high"; "critical"]) +
     Nat.b2n (String.eqb x "medium") +
     Nat.b2n (existsb (String.eqb x) ["low"; "minimal"]) = 1 ↔ x ∈ riskLevels).
Proof.
  unfold riskLevels. simpl.
  destruct (String.eqb_spec x "high") as [->|H1];
    [split; [done|split; [intros _; in_literals|done]]|].
  destruct (String.eqb_spec x "critical") as [->|H2];
    [split; [done|split; [intros _; in_literals|done]]|].
  destruct (String.eqb_spec x "medium") as [->|H3];
    [split; [done|split; [intros _; in_literals|done]]|].
  destruct (String.eqb_spec x "low") as [->|H4];
    [split; [done|split; [intros _; in_literals|done]]|].
  destruct (String.eqb_spec x "minimal") as [->|H5];
    [split; [done|split; [intros _; in_literals|done]]|].
  simpl. split; [lia|]. split; [lia|]. not_in_literals.
Qed.

Lemma filter_length_cons {A : Type} (f : A → bool) (x : A) (l : list A) :
  length (List.filter f (x :: l)) = Nat.b2n (f x) + length (List.filter f l).
Proof. simpl. by destruct (f x). Qed.

Lemma level_counts (toLowerCase : string → string) (us : list Api.UserRiskData) :
  let high := length (List.filter (Users.levelAmong toLowerCase ["high"; "critical"]) us) in
  let medium :=
    length (List.filter
              (fun u => String.eqb (toLowerCase (Api.risk_level u)) "medium") us) in
  let low := length (List.filter (Users.levelAmong toLowerCase ["low"; "minimal"]) us) in
  high + medium + low ≤ length us ∧
  (high + medium + low = length us ↔
     Forall (fun u => toLowerCase (Api.risk_level u) ∈ riskLevels) us).
Proof.
  cbv zeta. induction us as [|u rest [IHle IHeq]].
  - simpl. split; [lia|]. split; [constructor|done].
  - rewrite !filter_length_cons.
    change (Users.levelAmong toLowerCase ["high"; "critical"] u)
      with (existsb (String.eqb (toLowerCase (Api.risk_level u))) ["high"; "critical"]).
    change (Users.levelAmong toLowerCase ["low"; "minimal"] u)
      with (existsb (String.eqb (toLowerCase (Api.risk_level u))) ["low"; "minimal"]).
    destruct (level_classes (toLowerCase (Api.risk_level u))) as [Hle Heq].
    rewrite Forall_cons. rewrite length_cons.
    split; [lia|]. split.
    + intros Hsum. split; [apply Heq; lia|apply IHeq; lia].
    + intros [Hu Hrest]. apply Heq in Hu. apply IHeq in Hrest. lia.
Qed.

(** X3. On the Users page the High, Medium and Low cards count
    disjoint sets of the fetched users, so together they never exceed
    the Total card; they add up to it exactly when every user's
    lower-cased level is one of high, critical, medium, low, minimal. *)
Theorem statCards_partition
    (toLowerCase : string → string) (us : list Api.UserRiskData) :
  ∃ high medium low : nat,
    map Users.value (Users.statCards toLowerCase us) = [length us; high; medium; low] ∧
    high + medium + low ≤ length us ∧
    (high + medium + low = length us ↔
       Forall (fun u => toLowerCase (Api.risk_level u) ∈ riskLevels) us).
Proof.
  do 3 eexists. split; [reflexivity|]. apply level_counts.
Qed.

Lemma bar_ratio (q : Q) : (q / 50 * 100 == 2 * q)%Q.
Proof. field. Qed.

(** X4. The score bar is never wider than 100 per cent: its width is
    100 from a score of 50 on, it is not a number only for a [NaN]
    score, and it has no lower clamp, a score of -1 or less giving a
    negative width. *)
Theorem scoreBarWidth_bounds (score : number) :
  (notNaN (Users.scoreBarWidth score) = notNaN score) ∧
  (notNaN score = true → num_leb (Users.scoreBarWidth score) (Finite 100) = true) ∧
  (num_geb score 50 = true → num_geb (Users.scoreBarWidth score) 100 = true) ∧
  (num_leb score (Finite (-1)) = true → num_neg (Users.scoreBarWidth score) = true).
Proof.
  unfold Users.scoreBarWidth.
  destruct score as [q| | |]; simpl; try done.
  pose proof (bar_ratio q) as Hr.
  destruct (Qle_bool (q / 50 * 100) 100) eqn:Hle; simpl.
  - split; [done|]. split; [done|]. rewrite !Qle_bool_iff in *.
    split.
    + intros H50. rewrite Hr. lra.
    + intros Hneg. apply negb_true_iff, not_true_iff_false.
      rewrite Qle_bool_iff, Hr. lra.
  - split; [done|]. split; [done|].
    split; [done|]. intros Hneg. exfalso.
    apply not_true_iff_false in Hle. apply Hle.
    rewrite Qle_bool_iff in *. rewrite Hr. lra.
Qed.

(** X5. The level badges of the Users and Recommendations pages use
    the same class list for a level exactly when its lower-cased form
    is critical, high, medium or low; any other level, "minimal"
    included, is gray on Users and green on Recommendations. *)
Theorem getRiskLevelColor_agreement (toLowerCase : string → string) (level : string) :
  (Users.getRiskLevelColor toLowerCase level
     = Recommendations.getRiskLevelColor toLowerCase level ↔
   toLowerCase level ∈ paletteLevels) ∧
  (toLowerCase level ∉ paletteLevels →
   Users.getRiskLevelColor toLowerCase level
     = "bg-gray-100 text-gray-800 dark:bg-gray-900/20 dark:text-gray-400" ∧
   Recommendations.getRiskLevelColor toLowerCase level
     = "bg-green-100 text-green-800 dark:bg-green-900/20 dark:text-green-400").
Proof.
  unfold Users.getRiskLevelColor, Recommendations.getRiskLevelColor, paletteLevels.
  cbv zeta.
  destruct (String.eqb_spec (toLowerCase level) "critical") as [->|H1];
    [split; [split; [intros _; in_literals|done]|intros Hn; contradict Hn; in_literals]|].
  destruct (String.eqb_spec (toLowerCase level) "high") as [->|H2];
    [split; [split; [intros _; in_literals|done]|intros Hn; contradict Hn; in_literals]|].
  destruct (String.eqb_spec (toLowerCase level) "medium") as [->|H3];
    [split; [split; [intros _; in_literals|done]|intros Hn; contradict Hn; in_literals]|].
  destruct (String.eqb_spec (toLowerCase level) "low") as [->|H4];
    [split; [split; [intros _; in_literals|done]|intros Hn; contradict Hn; in_literals]|].
  split; [|done]. split; [done|not_in_literals].
Qed.

(** ** UserDetail: chart window, high-risk split, fetch, headings *)

Lemma sliceLast_split {A : Type} (n : nat) (l : list A) :
  l = take (length l - n) l ++ sliceLast n l ∧
  length (sliceLast n l) = length l `min` n.
Proof.
  unfold sliceLast. split; [by rewrite take_drop|].
  rewrite length_drop. lia.
Qed.

(** X6. The trend chart of a user shows the last twenty activities, in
    their order, and all of them when there are at most twenty: its
    labels and its points are aligned and never more than twenty. *)
Theorem chart_shows_last_twenty
    (toLocaleDateString : string → string) (acts : list UserDetail.ActivityLog) :
  ∃ older shown : list UserDetail.ActivityLog,
    acts = older ++ shown ∧
    length shown = length acts `min` 20 ∧
    (length acts ≤ 20 → older = []) ∧
    UserDetail.chartValues acts = map UserDetail.risk_score shown ∧
    UserDetail.chartLabels toLocaleDateString acts =
      map (fun a => toLocaleDateString (UserDetail.timestamp a)) shown ∧
    length (UserDetail.chartLabels toLocaleDateString acts)
      = length (UserDetail.chartValues acts).
Proof.
  destruct (sliceLast_split 20 acts) as [Hsplit Hlen].
  exists (take (length acts - 20) acts), (sliceLast 20 acts).
  split; [done|]. split; [done|].
  split.
  { intros Hle. replace (length acts - 20) with 0 by lia. done. }
  split; [done|]. split; [done|].
  unfold UserDetail.chartLabels, UserDetail.chartValues. by rewrite !length_map.
Qed.

Lemma num_geb_lower (a : number) (k k' : Q) :
  Qle_bool k' k = true → num_geb a k = true → num_geb a k' = true.
Proof.
  destruct a as [qa| | |]; simpl; try done.
  rewrite !Qle_bool_iff. intros Hk Hka. by eapply Qle_trans.
Qed.

Lemma hot_band (score : number) : isHot (Some (spec_band score)) = num_geb score 30.
Proof.
  unfold spec_band.
  destruct (num_geb score 40) eqn:H40.
  - simpl. symmetry. by apply (num_geb_lower score 40 30).
  - by destruct (num_geb score 30), (num_geb score 20).
Qed.

(** X7. The "high risk" split at 30 coincides with the banding: an
    activity is counted on the High Risk Events card exactly when its
    badge is orange or red, and the simulator shows the warning
    triangle exactly when its result panel is orange or red. *)
Theorem high_risk_split_matches_bands :
  (∀ acts : list UserDetail.ActivityLog,
     UserDetail.highRiskEvents acts =
       length (List.filter
                 (fun a => isHot (severity_of_class
                                    (UserDetail.getRiskScoreColor (UserDetail.risk_score a))))
                 acts) ∧
     UserDetail.highRiskEvents acts ≤ length acts) ∧
  (∀ score : number,
     RiskSimulator.resultIcon score = RiskSimulator.AlertTriangle ↔
     isHot (severity_of_class (RiskSimulator.getRiskColor score)) = true).
Proof.
  split.
  - intros acts. unfold UserDetail.highRiskEvents. split.
    + f_equal. apply filter_ext. intros a.
      destruct (class_bands (UserDetail.risk_score a)) as (_ & _ & _ & ->).
      by rewrite hot_band.
    + apply sublist_length, List_filter_sublist.
  - intros score. destruct (class_bands score) as (_ & _ & -> & _).
    rewrite hot_band. unfold RiskSimulator.resultIcon.
    by destruct (num_geb score 30).
Qed.

(** X8. The UserDetail page never shows a user. Whatever its two
    requests settle with, [fetchUserData] ends in its [catch] (reading
    [.data] off the array of users is [undefined]), stores neither the
    activities nor the user and logs one line; so for a non-empty route
    id the page ends on "User not found", and for a missing or empty id
    it never leaves the spinner. *)
Theorem userDetail_never_shows_user :
  (∀ awaited s,
     UserDetail.fetchUserData_settle awaited s =
       (UserDetail.mkState (UserDetail.activities s) false (UserDetail.user s),
        [ConsoleError "Failed to fetch user data:"])) ∧
  (∀ c rest getUserActivity axiosInstance,
     UserDetail.pageAfterMount (Some (String c rest)) getUserActivity axiosInstance =
       (UserDetail.NotFound, [ConsoleError "Failed to fetch user data:"])) ∧
  (∀ getUserActivity axiosInstance,
     UserDetail.pageAfterMount None getUserActivity axiosInstance
       = (UserDetail.Spinner, []) ∧
     UserDetail.pageAfterMount (Some "") getUserActivity axiosInstance
       = (UserDetail.Spinner, [])).
Proof.
  assert (∀ awaited s,
     UserDetail.fetchUserData_settle awaited s =
       (UserDetail.mkState (UserDetail.activities s) false (UserDetail.user s),
        [ConsoleError "Failed to fetch user data:"])) as Hsettle.
  { intros [[activitiesResponse usersResponse]|err] s; reflexivity. }
  split; [done|]. split; [|done].
  intros c rest a t. unfold UserDetail.pageAfterMount, UserDetail.fetchUserData.
  by rewrite Hsettle.
Qed.

Lemma replaceFirstChar_facts (c r : ascii) (s : string) :
  c ≠ r →
  String.length (replaceFirstChar c r s) = String.length s ∧
  countChar c (replaceFirstChar c r s) = countChar c s - 1 ∧
  (countChar c s = 0 → replaceFirstChar c r s = s).
Proof.
  intros Hne. induction s as [|x rest (IHlen & IHcount & IHsame)]; simpl; [done|].
  destruct (Ascii.eqb_spec x c) as [->|Hx]; simpl.
  - split; [done|]. split; [|done].
    destruct (Ascii.eqb_spec r c) as [->|_]; [done|]. simpl. lia.
  - destruct (Ascii.eqb_spec x c) as [->|_]; [done|].
    split; [by rewrite IHlen|]. split; [done|].
    intros H0. by rewrite IHsame.
Qed.

(** X9. The heading of a timeline entry replaces only the first
    underscore of the action by a space: the text keeps its length,
    loses exactly one underscore when it has any, and is otherwise
    only upper-cased. *)
Theorem actionTitle_first_underscore_only (toUpperCase : string → string) (act : string) :
  (∃ spaced,
     UserDetail.actionTitle toUpperCase act = toUpperCase spaced ∧
     String.length spaced = String.length act ∧
     countChar "_" spaced = countChar "_" act - 1 ∧
     (countChar "_" act = 0 → spaced = act)) ∧
  UserDetail.actionTitle asciiToUpperCase "system_access" = "SYSTEM ACCESS" ∧
  UserDetail.actionTitle asciiToUpperCase "failed_login_attempt" = "FAILED LOGIN_ATTEMPT".
Proof.
  split; [|by vm_compute].
  exists (replaceFirstChar "_" " " act). split; [done|].
  by apply replaceFirstChar_facts.
Qed.

(** ** Recommendations: totals, refresh, first load *)

Lemma fold_left_lengths {A B : Type} (f : A → list B) (l : list A) (start : nat) :
  fold_left (fun sum x => sum + length (f x)) l start = start + length (concat (map f l)).
Proof.
  revert start. induction l as [|x rest IH]; intros start; simpl; [lia|].
  rewrite IH, length_app. lia.
Qed.

Lemma totalRecommendations_length (d : Recommendations.RecommendationsData) :
  Recommendations.totalRecommendations d = length (Recommendations.actionRows d).
Proof.
  unfold Recommendations.totalRecommendations, Recommendations.actionRows.
  by rewrite fold_left_lengths.
Qed.

(** X10. The "Total Recommendations" figure is the number of action
    rows the cards render, and it is zero exactly when no card has an
    action. *)
Theorem totalRecommendations_counts_rows (d : Recommendations.RecommendationsData) :
  Recommendations.totalRecommendations d = length (Recommendations.actionRows d) ∧
  (Recommendations.totalRecommendations d = 0 ↔
     Forall (fun rec => Recommendations.actions rec = [])
       (Recommendations.recommendations d)).
Proof.
  pose proof (totalRecommendations_length d) as Heq.
  split; [done|]. rewrite Heq. unfold Recommendations.actionRows.
  induction (Recommendations.recommendations d) as [|rec rest IH]; simpl.
  - split; [constructor|done].
  - rewrite length_app, Forall_cons. split.
    + intros Hz. split; [apply length_zero_iff_nil; lia|apply IH; lia].
    + intros [-> Hrest]. apply IH in Hrest. simpl. lia.
Qed.

(** X11. A refresh always ends with the button enabled again and with
    the "Recommendations updated" notification last, success or not:
    the data are replaced only by the parsed body of an OK response,
    and a failed refresh shows the failure notification and then the
    "updated" one over the stale data. *)
Theorem handleRefresh_always_reports_update
    (fetched : Outcome Recommendations.FetchResponse) (s : Recommendations.State) :
  let after := Recommendations.handleRefresh fetched s in
  Recommendations.isRefreshing after.1 = false ∧
  Recommendations.isLoading after.1 = false ∧
  last after.2 = Some (ToastSuccess "Recommendations updated") ∧
  Recommendations.data after.1 =
    match fetched with
    | Resolved (Recommendations.mkFetchResponse true (Resolved d)) => Some d
    | _ => Recommendations.data s
    end ∧
  failureNotifications after.2 = Nat.b2n (recommendationsFailure fetched).
Proof.
  unfold Recommendations.handleRefresh, Recommendations.fetchRecommendations.
  destruct fetched as [[[] [d|err]]|err]; simpl; done.
Qed.

(** X12. What the page shows after its first load: the cards of the
    answered list when an OK response parsed and the list is not empty;
    otherwise the "All Clear!" panel, without the summary row whenever
    no data came (rejected request, non-OK status, unparsable body). *)
Theorem recommendations_first_render (fetched : Outcome Recommendations.FetchResponse) :
  Recommendations.render
    (Recommendations.fetchRecommendations fetched Recommendations.initial).1 =
    match fetched with
    | Resolved (Recommendations.mkFetchResponse true (Resolved d)) =>
        Recommendations.Page false
          (Some (Recommendations.total_high_risk_users d,
                 length (Recommendations.actionRows d),
                 Recommendations.generated_at d))
          (match Recommendations.recommendations d with
           | [] => Recommendations.AllClear
           | _ :: _ => Recommendations.Cards (Recommendations.recommendations d)
           end)
    | _ => Recommendations.Page false None Recommendations.AllClear
    end.
Proof.
  destruct fetched as [[[] [d|err]]|err]; try reflexivity.
  unfold Recommendations.fetchRecommendations, Recommendations.render. simpl.
  rewrite totalRecommendations_length.
  by destruct (Recommendations.recommendations d).
Qed.

(** ** Dashboard: what the cards show *)

(** X13. The Dashboard never shows fetched figures: [getDashboardStats]
    is not a member of [riskAPI], so whatever the backend would answer
    the fetch ends in its [catch], and the page leaves the spinner with
    its four cards on the initial zeros and an empty trend chart.  Had
    the awaited pair resolved, the cards would show the answered
    figures and the chart one point per trend. *)
Theorem dashboard_shows_initial_zeros
    (toLocaleString : number → string) (toLocaleDateString : string → string) :
  (∀ getDashboardStats getRiskTrends,
     let after :=
       Dashboard.fetchDashboardData getDashboardStats getRiskTrends Dashboard.initial in
     after.2 = [ConsoleError "Failed to fetch dashboard data:"] ∧
     Dashboard.isLoading after.1 = false ∧
     map Dashboard.value (Dashboard.statCards toLocaleString after.1) =
       [toLocaleString (Finite 0); toLocaleString (Finite 0);
        toLocaleString (Finite 0); "0.0"] ∧
     Dashboard.lineChartData toLocaleDateString after.1 = ([], [])) ∧
  (∀ st tr s,
     let after :=
       Dashboard.fetchDashboardData_settle
         (Resolved (Api.mkResponse st, Api.mkResponse tr)) s in
     after.2 = [] ∧
     map Dashboard.value (Dashboard.statCards toLocaleString after.1) =
       [toLocaleString (Dashboard.total_users st);
        toLocaleString (Dashboard.high_risk_users st);
        toLocaleString (Dashboard.recent_alerts st);
        toFixed1 (Dashboard.average_risk_score st)] ∧
     length (Dashboard.lineChartData toLocaleDateString after.1).1 = length tr ∧
     length (Dashboard.lineChartData toLocaleDateString after.1).2 = length tr).
Proof.
  split.
  - intros a b. destruct dashboard_and_detail_fetches_fail as [-> _]. simpl.
    repeat split; by vm_compute.
  - intros st tr s. simpl. by rewrite !length_map.
Qed.

(** ** Risk Simulator: the draft, its display, the notifications *)

Lemma State_eq (a b : RiskSimulator.State) :
  RiskSimulator.isLoading a = RiskSimulator.isLoading b →
  RiskSimulator.result a = RiskSimulator.result b →
  RiskSimulator.formData a = RiskSimulator.formData b →
  a = b.
Proof. destruct a, b. simpl. by intros -> -> ->. Qed.

(** X14. Presets compose by layering: after two presets the draft is
    the second over the first over the prior draft, so a field only the
    first one names stays as that preset set it ("Large Data Download"
    followed by "Failed Login Attempts" leaves [file_size] at 2048);
    applying the same preset twice is the same as applying it once. *)
Theorem presets_layer
    (first second : RiskSimulator.Scenario) (s : RiskSimulator.State) :
  RiskSimulator.formData
    (RiskSimulator.applyPreset second (RiskSimulator.applyPreset first s))
    = RiskSimulator.data second ∪ (RiskSimulator.data first ∪ RiskSimulator.formData s) ∧
  RiskSimulator.applyPreset first (RiskSimulator.applyPreset first s)
    = RiskSimulator.applyPreset first s ∧
  RiskSimulator.formData
    (RiskSimulator.applyPreset RiskSimulator.failedLoginAttempts
       (RiskSimulator.applyPreset RiskSimulator.largeDataDownload s)) !! "file_size"
    = Some (RiskSimulator.VNum (Finite 2048)).
Proof.
  split; [done|]. split.
  - apply State_eq; [done|done|]. simpl.
    rewrite (assoc_L (∪)). by rewrite (idemp_L (∪)).
  - rewrite !applyPreset_lookup. by vm_compute.
Qed.

(** X15. Editing a field of the draft sets that field and no other;
    edits of different fields commute and of the same field the later
    one wins; a preset applied afterwards keeps the edit unless it
    names the field. *)
Theorem handleInputChange_frame
    (field : string) (v : RiskSimulator.value) (s : RiskSimulator.State) :
  RiskSimulator.formData (RiskSimulator.handleInputChange field v s) !! field = Some v ∧
  (∀ other, other ≠ field →
     RiskSimulator.formData (RiskSimulator.handleInputChange field v s) !! other
       = RiskSimulator.formData s !! other) ∧
  (∀ other w, other ≠ field →
     RiskSimulator.handleInputChange other w (RiskSimulator.handleInputChange field v s)
       = RiskSimulator.handleInputChange field v
           (RiskSimulator.handleInputChange other w s)) ∧
  (∀ w,
     RiskSimulator.handleInputChange field w (RiskSimulator.handleInputChange field v s)
       = RiskSimulator.handleInputChange field w s) ∧
  (∀ scenario,
     RiskSimulator.formData
       (RiskSimulator.applyPreset scenario (RiskSimulator.handleInputChange field v s))
       !! field
     = match RiskSimulator.data scenario !! field with
       | Some w => Some w
       | None => Some v
       end).
Proof.
  split; [apply lookup_insert_eq|].
  split; [intros other Hne; by apply lookup_insert_ne|].
  split.
  { intros other w Hne. apply State_eq; [done|done|]. simpl.
    by apply insert_insert_ne. }
  split.
  { intros w. apply State_eq; [done|done|]. simpl. apply insert_insert_eq. }
  intros scenario. rewrite applyPreset_lookup.
  destruct (RiskSimulator.data scenario !! field); [done|]. apply lookup_insert_eq.
Qed.

Lemma shownField_cases (field : string) (fallback : RiskSimulator.value)
    (s : RiskSimulator.State) :
  (RiskSimulator.truthy (RiskSimulator.formData s !! field) = true ∧
   RiskSimulator.formData s !! field = Some (RiskSimulator.shownField field fallback s)) ∨
  (RiskSimulator.truthy (RiskSimulator.formData s !! field) = false ∧
   RiskSimulator.shownField field fallback s = fallback).
Proof.
  unfold RiskSimulator.shownField.
  destruct (RiskSimulator.truthy (RiskSimulator.formData s !! field)) eqn:Ht.
  - left. split; [done|]. by destruct (RiskSimulator.formData s !! field).
  - by right.
Qed.

(** X16. An input with a fallback shows the stored value when that is
    truthy and the fallback otherwise.  The Session Duration input
    therefore never shows 0, [NaN] or nothing: a draft holding 0 is
    displayed as 60 while 0 is what a submission sends. *)
Theorem shown_inputs_fall_back (s : RiskSimulator.State) :
  (∀ field fallback,
     (RiskSimulator.truthy (RiskSimulator.formData s !! field) = true ∧
      RiskSimulator.formData s !! field
        = Some (RiskSimulator.shownField field fallback s)) ∨
     (RiskSimulator.truthy (RiskSimulator.formData s !! field) = false ∧
      RiskSimulator.shownField field fallback s = fallback)) ∧
  RiskSimulator.truthy (Some (RiskSimulator.shownSessionDuration s)) = true ∧
  (let zeroed :=
     RiskSimulator.handleInputChange "session_duration"
       (RiskSimulator.VNum (Finite 0)) s in
   RiskSimulator.shownSessionDuration zeroed = RiskSimulator.VNum (Finite 60) ∧
   RiskSimulator.formData zeroed !! "session_duration"
     = Some (RiskSimulator.VNum (Finite 0)) ∧
   (RiskSimulator.isLoading s = false →
    ∀ pending emitted,
      RiskSimulator.inFlight
        <$> RiskSimulator.fire RiskSimulator.Submit
              (RiskSimulator.mkSys zeroed pending emitted)
      = Some (RiskSimulator.formData zeroed :: pending))).
Proof.
  split; [intros field fallback; apply shownField_cases|].
  split.
  { unfold RiskSimulator.shownSessionDuration.
    destruct (shownField_cases "session_duration"
                (RiskSimulator.VNum (Finite 60)) s) as [[Ht Hs]|[_ ->]]; [|done].
    by rewrite <- Hs. }
  cbv zeta. split.
  { unfold RiskSimulator.shownSessionDuration, RiskSimulator.shownField,
      RiskSimulator.handleInputChange. simpl. by rewrite lookup_insert_eq. }
  split; [apply lookup_insert_eq|].
  intros Hidle pending emitted. unfold RiskSimulator.fire, RiskSimulator.submitDisabled.
  simpl. by rewrite Hidle.
Qed.

Lemma fire_accounting (e : RiskSimulator.Event) (s s' : RiskSimulator.Sys) :
  RiskSimulator.fire e s = Some s' →
  length (List.filter RiskSimulator.isToast (RiskSimulator.emitted s'))
    + length (RiskSimulator.inFlight s')
  = length (List.filter RiskSimulator.isToast (RiskSimulator.emitted s))
    + length (RiskSimulator.inFlight s) + Nat.b2n (RiskSimulator.isSubmit e) ∧
  (failureNotifications (RiskSimulator.emitted s) = consoleLines (RiskSimulator.emitted s) →
   failureNotifications (RiskSimulator.emitted s') = consoleLines (RiskSimulator.emitted s')).
Proof.
  destruct s as [u pending out].
  destruct e as [|predicted|scenario|field v]; simpl.
  - destruct (RiskSimulator.submitDisabled u); [done|].
    intros [= <-]. simpl. split; [lia|done].
  - destruct pending as [|req rest]; [done|].
    unfold RiskSimulator.handleSubmit_settle, failureNotifications, consoleLines.
    destruct predicted as [response|err]; intros [= <-]; simpl;
      rewrite !List.filter_app, !length_app; simpl; split; lia.
  - intros [= <-]. simpl. split; [lia|done].
  - intros [= <-]. simpl. split; [lia|done].
Qed.

Lemma run_accounting (events : list RiskSimulator.Event) (s s' : RiskSimulator.Sys) :
  RiskSimulator.run events s = Some s' →
  length (List.filter RiskSimulator.isToast (RiskSimulator.emitted s'))
    + length (RiskSimulator.inFlight s')
  = length (List.filter RiskSimulator.isToast (RiskSimulator.emitted s))
    + length (RiskSimulator.inFlight s)
    + length (List.filter RiskSimulator.isSubmit events) ∧
  (failureNotifications (RiskSimulator.emitted s) = consoleLines (RiskSimulator.emitted s) →
   failureNotifications (RiskSimulator.emitted s') = consoleLines (RiskSimulator.emitted s')).
Proof.
  revert s. induction events as [|e rest IH]; intros s; simpl.
  - intros [= <-]. split; [lia|done].
  - destruct (RiskSimulator.fire e s) as [s1|] eqn:Hfire; [|done].
    intros Hrun. apply IH in Hrun as [Hcount Hlog].
    apply fire_accounting in Hfire as [Hfire Hlog1].
    split; [|auto].
    destruct (RiskSimulator.isSubmit e); simpl in *; lia.
Qed.

(** X17. Over any sequence of events of the simulator, every accepted
    submission is answered by exactly one notification: the number of
    notifications shown plus the number of requests still in flight is
    the number of submit events; and every failure notification comes
    with one console line. *)
Theorem one_toast_per_submission
    (events : list RiskSimulator.Event) (s : RiskSimulator.Sys) :
  RiskSimulator.run events RiskSimulator.initialSys = Some s →
  length (List.filter RiskSimulator.isToast (RiskSimulator.emitted s))
    + length (RiskSimulator.inFlight s)
  = length (List.filter RiskSimulator.isSubmit events) ∧
  failureNotifications (RiskSimulator.emitted s) = consoleLines (RiskSimulator.emitted s).
Proof.
  intros Hrun. apply run_accounting in Hrun as [Hcount Hlog]. simpl in Hcount.
  split; [lia|by apply Hlog].
Qed.

Lemma one_toast_per_submission_witness :
  length (List.filter RiskSimulator.isToast (RiskSimulator.emitted sampleSys))
    + length (RiskSimulator.inFlight sampleSys)
  = length (List.filter RiskSimulator.isSubmit sampleEvents) ∧
  failureNotifications (RiskSimulator.emitted sampleSys)
    = consoleLines (RiskSimulator.emitted sampleSys).
Proof.
  apply (one_toast_per_submission sampleEvents sampleSys).
  reflexivity.
Defined.

(** ** Layout: navigation and the user box *)

(** X18. At most one entry of the sidebar is highlighted, and one is
    exactly when the path is that of an entry; on a user-detail path
    [/users/<id>] none is. *)
Theorem at_most_one_active_entry (pathname : string) :
  length (Layout.activeItems pathname) ≤ 1 ∧
  (length (Layout.activeItems pathname) = 1 ↔
     pathname ∈ map Layout.href Layout.navigation) ∧
  (∀ id, Layout.activeItems ("/users/" +:+ id) = []).
Proof.
  split; [|split].
  - unfold Layout.activeItems, Layout.isActive. simpl.
    destruct (String.eqb_spec pathname "/dashboard") as [->|H1]; [done|].
    destruct (String.eqb_spec pathname "/users") as [->|H2]; [done|].
    destruct (String.eqb_spec pathname "/recommendations") as [->|H3]; [done|].
    destruct (String.eqb_spec pathname "/settings") as [->|H4]; simpl; lia.
  - unfold Layout.activeItems, Layout.isActive. simpl.
    destruct (String.eqb_spec pathname "/dashboard") as [->|H1];
      [split; [intros _; in_literals|done]|].
    destruct (String.eqb_spec pathname "/users") as [->|H2];
      [split; [intros _; in_literals|done]|].
    destruct (String.eqb_spec pathname "/recommendations") as [->|H3];
      [split; [intros _; in_literals|done]|].
    destruct (String.eqb_spec pathname "/settings") as [->|H4];
      [split; [intros _; in_literals|done]|].
    split; [done|not_in_literals].
  - intros id. by destruct id.
Qed.

(** X19. The user box of the sidebar never renders an empty text,
    whatever the session holds: without a user, or with a name or role
    that is missing or empty, it shows "?", "User" and "Guest"; a
    non-empty name or role is shown as it is, and the avatar is the
    upper-cased first letter of a non-empty name. *)
Theorem user_box_never_empty
    (toUpperCase : string → string) (user : option Layout.AuthUser) :
  Layout.avatarLetter toUpperCase user ≠ "" ∧
  Layout.displayName user ≠ "" ∧
  Layout.displayRole user ≠ "" ∧
  (user ≫= Layout.userName = None ∨ user ≫= Layout.userName = Some "" →
   Layout.displayName user = "User" ∧
   (toUpperCase "" = "" → Layout.avatarLetter toUpperCase user = "?")) ∧
  (user = None →
   Layout.avatarLetter toUpperCase user = "?" ∧
   Layout.displayName user = "User" ∧
   Layout.displayRole user = "Guest") ∧
  (user ≫= Layout.role = None ∨ user ≫= Layout.role = Some "" →
   Layout.displayRole user = "Guest") ∧
  (∀ c rest, user ≫= Layout.role = Some (String c rest) →
   Layout.displayRole user = String c rest) ∧
  (∀ c rest, user ≫= Layout.userName = Some (String c rest) →
   Layout.displayName user = String c rest ∧
   (toUpperCase (String c "") ≠ "" →
    Layout.avatarLetter toUpperCase user = toUpperCase (String c ""))).
Proof.
  assert (∀ a fallback, fallback ≠ "" → Layout.orString a fallback ≠ "") as Hor.
  { intros [[|c rest]|] fallback Hf; simpl; done. }
  split; [by apply Hor|]. split; [by apply Hor|]. split; [by apply Hor|].
  split.
  { unfold Layout.displayName, Layout.avatarLetter.
    intros [-> | ->]; simpl; [done|]. split; [done|]. by intros ->. }
  split; [by intros ->|].
  split.
  { unfold Layout.displayRole. by intros [-> | ->]. }
  split.
  { unfold Layout.displayRole. by intros c rest ->. }
  intros c rest Hname. unfold Layout.displayName, Layout.avatarLetter.
  rewrite Hname. simpl. split; [done|].
  by destruct (toUpperCase (String c "")).
Qed.

(** ** Settings: nested updates, switches, headings *)

(** X20. An edit on the Settings page sets one field of one section:
    the other sections and the other fields of that section keep their
    values, and an edit in a section that does not exist creates it
    with that single field. *)
Theorem updateSettings_frame
    (section field : string) (v : RiskSimulator.value)
    (prev : gmap string (gmap string RiskSimulator.value)) :
  Settings.updateSettings section field v prev !! section ≫= (.!! field) = Some v ∧
  (∀ other, other ≠ section →
     Settings.updateSettings section field v prev !! other = prev !! other) ∧
  (∀ other, other ≠ field →
     Settings.updateSettings section field v prev !! section ≫= (.!! other)
       = prev !! section ≫= (.!! other)) ∧
  (prev !! section = None →
     Settings.updateSettings section field v prev !! section = Some {[ field := v ]}) ∧
  (∀ s, Settings.activeTab (Settings.handleInputChange section field v s)
          = Settings.activeTab s ∧
        Settings.isLoading (Settings.handleInputChange section field v s)
          = Settings.isLoading s).
Proof.
  unfold Settings.updateSettings.
  split; [rewrite lookup_insert_eq; simpl; apply lookup_insert_eq|].
  split; [intros other Hne; by apply lookup_insert_ne|].
  split.
  { intros other Hne. rewrite lookup_insert_eq. simpl.
    rewrite lookup_insert_ne by done.
    destruct (prev !! section); [done|]. simpl. apply lookup_empty. }
  split; [|done].
  intros ->. by rewrite lookup_insert_eq.
Qed.

Lemma Settings_State_eq (a b : Settings.State) :
  Settings.activeTab a = Settings.activeTab b →
  Settings.isLoading a = Settings.isLoading b →
  Settings.settings a = Settings.settings b →
  a = b.
Proof. destruct a, b. simpl. by intros -> -> ->. Qed.

(** X21. Flipping a notification switch twice restores the settings:
    for a key whose value is a boolean, two toggles give back the state
    the page was in; one toggle stores the negated value under that
    key. *)
Theorem toggleNotification_involution (key : string) (b : bool) (s : Settings.State) :
  Settings.settings s !! "notifications" ≫= (.!! key) = Some (RiskSimulator.VBool b) →
  Settings.settings (Settings.toggleNotification key s) !! "notifications" ≫= (.!! key)
    = Some (RiskSimulator.VBool (negb b)) ∧
  Settings.toggleNotification key (Settings.toggleNotification key s) = s.
Proof.
  intros Hkey.
  destruct (Settings.settings s !! "notifications") as [section|] eqn:Hsec; [|done].
  simpl in Hkey.
  assert (Settings.toggleNotification key s =
            Settings.handleInputChange "notifications" key
              (RiskSimulator.VBool (negb b)) s) as Hone.
  { unfold Settings.toggleNotification. rewrite Hsec. simpl. by rewrite Hkey. }
  rewrite Hone. split.
  { unfold Settings.handleInputChange, Settings.updateSettings. simpl.
    rewrite lookup_insert_eq. simpl. apply lookup_insert_eq. }
  unfold Settings.toggleNotification, Settings.handleInputChange, Settings.updateSettings.
  simpl. rewrite !lookup_insert_eq. simpl. rewrite !lookup_insert_eq. simpl.
  apply Settings_State_eq; [done|done|]. simpl.
  rewrite Hsec. simpl. rewrite insert_insert_eq, insert_insert_eq.
  rewrite negb_involutive.
  rewrite (insert_id section key) by done. by apply insert_id.
Qed.

Lemma toggleNotification_involution_witness :
  Settings.settings (Settings.toggleNotification "pushNotifications" Settings.initial)
    !! "notifications" ≫= (.!! "pushNotifications")
    = Some (RiskSimulator.VBool (negb false)) ∧
  Settings.toggleNotification "pushNotifications"
    (Settings.toggleNotification "pushNotifications" Settings.initial) = Settings.initial.
Proof.
  apply (toggleNotification_involution "pushNotifications" false Settings.initial).
  vm_compute. reflexivity.
Defined.

Lemma spaceBeforeCapitals_facts (s : string) :
  Settings.removeSpaces (Settings.spaceBeforeCapitals s) = Settings.removeSpaces s ∧
  String.length (Settings.spaceBeforeCapitals s)
    = String.length s + Settings.countUpperAZ s.
Proof.
  induction s as [|c rest [IHr IHl]]; simpl; [done|].
  destruct (Settings.isUpperAZ c) eqn:Hup; simpl.
  - assert (Ascii.eqb c " " = false) as Hsp.
    { destruct (Ascii.eqb_spec c " ") as [->|]; [by vm_compute in Hup|done]. }
    rewrite Hsp, IHr, IHl. split; [done|lia].
  - rewrite IHr, IHl. split; [done|lia].
Qed.

(** X22. The heading of a notification row is the key with its first
    letter upper-cased and a space put before every capital of the
    rest: nothing but spaces is added, one per capital, so the key can
    be read back by dropping them; [emailAlerts] reads "Email Alerts". *)
Theorem notificationLabel_spacing (toUpperCase : string → string) (key : string) :
  (∃ spaced,
     Settings.notificationLabel toUpperCase key = toUpperCase (charAt0 key) +:+ spaced ∧
     Settings.removeSpaces spaced = Settings.removeSpaces (slice1 key) ∧
     String.length spaced = String.length (slice1 key) + Settings.countUpperAZ (slice1 key)) ∧
  map (Settings.notificationLabel asciiToUpperCase)
    ["emailAlerts"; "pushNotifications"; "weeklyReports"; "criticalAlerts"]
  = ["Email Alerts"; "Push Notifications"; "Weekly Reports"; "Critical Alerts"].
Proof.
  split; [|by vm_compute].
  exists (Settings.spaceBeforeCapitals (slice1 key)). split; [done|].
  apply spaceBeforeCapitals_facts.
Qed.
